(** * BeVec: a unified adapter layer over the Pinecone and Chroma SDKs

    Shallow embedding of [bevec/core/registry.py], [bevec/core/exceptions.py],
    [bevec/providers/pinecone/{adapter,config}.py] and
    [bevec/providers/chroma/{adapter,config}.py], followed by the properties
    of the natural-language specification that they decide.

    Conventions of the embedding:
    - a Python value that the adapters inspect dynamically ([isinstance],
      [in], subscripting) is a [PyVal];
    - a Python [str] is a [string] whose characters are code points below 256;
    - a Python [int] is a [Z], a Python [float] a binary64 [float];
    - a call either returns or raises: [Outcome];
    - the wrapped SDK objects are an oracle [Sdk] answering each native
      [Call] from the history of native calls made so far, and every adapter
      method runs in the monad [M], which records the native calls it issues. *)

From Stdlib Require Import List String Ascii ZArith Bool Arith Lia.
From Stdlib Require Import DecimalString.
From Stdlib Require Import Floats.PrimFloat.
Import ListNotations.

Local Open Scope string_scope.
Local Open Scope list_scope.

Set Warnings "-register-all,-inexact-float".

(** ** Python values *)

Inductive PyVal : Type :=
| PyNone
| PyBool (b : bool)
| PyInt (n : Z)
| PyFloat (x : float)
| PyStr (s : string)
| PyList (items : list PyVal)
| PyDict (items : list (string * PyVal)).

(** [k in d] and [d[k]] on the items of a dict (keys are distinct in a
    Python dict; the first binding is the one found). *)
Fixpoint dict_get {V : Type} (k : string) (d : list (string * V)) : option V :=
  match d with
  | [] => None
  | (k', v) :: rest => if String.eqb k k' then Some v else dict_get k rest
  end.

Definition dict_contains {V : Type} (k : string) (d : list (string * V)) : bool :=
  match dict_get k d with Some _ => true | None => false end.

(** [isinstance(v, dict)], [isinstance(v, list)], [isinstance(v, (int, float))].
    [bool] is a subclass of [int]. *)
Definition isinstance_dict (v : PyVal) : bool :=
  match v with PyDict _ => true | _ => false end.

Definition isinstance_list (v : PyVal) : bool :=
  match v with PyList _ => true | _ => false end.

Definition isinstance_int_float (v : PyVal) : bool :=
  match v with PyBool _ | PyInt _ | PyFloat _ => true | _ => false end.

(** [f"{i}"] for a non-negative index. *)
Definition str_of_nat (i : nat) : string := NilZero.string_of_uint (Nat.to_uint i).

(** ** [repr] of a [str]

    Needed only for [str(e)] when [e] is a [KeyError], whose text is the
    [repr] of its argument. *)

Definition squote : ascii := ascii_of_nat 39.
Definition dquote : ascii := ascii_of_nat 34.
Definition backslash : ascii := ascii_of_nat 92.

Definition hex_digit (n : nat) : ascii :=
  ascii_of_nat (if (n <? 10)%nat then 48 + n else 87 + n).

Definition hex_escape (c : ascii) : string :=
  let n := nat_of_ascii c in
  String backslash
    (String "x" (String (hex_digit (n / 16)) (String (hex_digit (n mod 16)) EmptyString))).

Fixpoint str_contains (c : ascii) (s : string) : bool :=
  match s with
  | EmptyString => false
  | String c' rest => Ascii.eqb c c' || str_contains c rest
  end.

Definition repr_char (quote c : ascii) : string :=
  let n := nat_of_ascii c in
  if Ascii.eqb c quote || Ascii.eqb c backslash then String backslash (String c EmptyString)
  else if (n =? 9)%nat then String backslash "t"
  else if (n =? 10)%nat then String backslash "n"
  else if (n =? 13)%nat then String backslash "r"
  else if (n <? 32)%nat || (n =? 127)%nat then hex_escape c
  else if (n <? 127)%nat then String c EmptyString
  else if (n <=? 160)%nat || (n =? 173)%nat then hex_escape c
  else String c EmptyString.

Fixpoint repr_body (quote : ascii) (s : string) : string :=
  match s with
  | EmptyString => EmptyString
  | String c rest => repr_char quote c ++ repr_body quote rest
  end.

Definition py_repr (s : string) : string :=
  let quote := if str_contains squote s && negb (str_contains dquote s)
               then dquote else squote in
  String quote (repr_body quote s ++ String quote EmptyString).

(** ** Exceptions ([bevec/core/exceptions.py] and the builtins involved) *)

Inductive ExcClass : Type :=
| ValueError
| KeyError
| IndexError
| TypeError
| OtherException (name : string)   (* any other subclass of Exception, none of the above *)
| ProviderError
| ConfigurationError
| VectorOperationError
| ValidationError.

(** [exc_class(exc_arg)]: an exception built from one message argument. *)
Record Exc : Type := mkExc { exc_class : ExcClass; exc_arg : string }.

Definition is_ValueError (e : Exc) : bool :=
  match exc_class e with ValueError => true | _ => false end.

Definition is_ValidationError (e : Exc) : bool :=
  match exc_class e with ValidationError => true | _ => false end.

(** [str(e)] *)
Definition py_str (e : Exc) : string :=
  match exc_class e with
  | KeyError => py_repr (exc_arg e)
  | _ => exc_arg e
  end.

Inductive Outcome (A : Type) : Type :=
| Return (a : A)
| Raise (e : Exc).
Arguments Return {A} a.
Arguments Raise {A} e.

(** ** Native SDK calls *)

(** The dict returned by the native Chroma [collection.query]. *)
Record QueryResult : Type := mkQueryResult {
  ids : list (list PyVal);
  metadatas : list (list PyVal);
  distances : list (list float)
}.

Inductive Call : Type :=
| index_upsert (vectors : list (PyVal * PyVal * PyVal))
| index_query (vector : PyVal) (top_k : Z)
| collection_add (ids embeddings metadatas : list PyVal)
| collection_query (query_embeddings : list PyVal) (n_results : Z) (include : list string)
| client_create_index (name : string) (dimension : Z) (metric : string)
| client_delete_index (name : string)
| client_delete_collection (name : string)
| chromadb_PersistentClient (path : string) (anonymized_telemetry allow_reset : bool).

(** What each native call returns when it does not raise. *)
Definition Ret (c : Call) : Type :=
  match c with
  | index_query _ _ => list (string * PyVal)
  | collection_query _ _ _ => QueryResult
  | _ => unit
  end.

(** The SDK side: the answer to a native call may depend on the calls made
    before it. *)
Definition Sdk : Type := forall (history : list Call) (c : Call), Outcome (Ret c).

(** Adapter code: runs against an SDK, extends the history of native calls. *)
Definition M (A : Type) : Type := Sdk -> list Call -> list Call * Outcome A.

Definition ret {A} (a : A) : M A := fun _ h => (h, Return a).

Definition raise {A} (e : Exc) : M A := fun _ h => (h, Raise e).

Definition bind {A B} (m : M A) (k : A -> M B) : M B :=
  fun sdk h =>
    match m sdk h with
    | (h', Return a) => k a sdk h'
    | (h', Raise e) => (h', Raise e)
    end.

(** [try: m  except Exception as e: handler e] *)
Definition try_except {A} (m : M A) (handler : Exc -> M A) : M A :=
  fun sdk h =>
    match m sdk h with
    | (h', Return a) => (h', Return a)
    | (h', Raise e) => handler e sdk h'
    end.

Definition native (c : Call) : M (Ret c) := fun sdk h => (h ++ [c], sdk h c).

Definition lift {A} (o : Outcome A) : M A := fun _ h => (h, o).

Notation "x <- m ;; k" := (bind m (fun x => k))
  (at level 61, m at next level, right associativity).
Notation "m ;;; k" := (bind m (fun _ => k))
  (at level 61, right associativity).

(** [xs[i]] on a list *)
Definition list_item {A} (xs : list A) (i : nat) : Outcome A :=
  match nth_error xs i with
  | Some x => Return x
  | None => Raise (mkExc IndexError "list index out of range")
  end.

(** [try: body  except Exception as e: raise cls(prefix + str(e))] on a pure body *)
Definition reraise_as {A} (cls : ExcClass) (prefix : string) (o : Outcome A) : Outcome A :=
  match o with
  | Return a => Return a
  | Raise e => Raise (mkExc cls (prefix ++ py_str e))
  end.

(** ** [bevec/providers/chroma/adapter.py]: [ChromaCollection] *)

Module ChromaCollection.

(** The body of the [try] inside the [for] loop of [upsert]. *)
Definition check_vector (i : nat) (vector : PyVal) : Outcome (PyVal * PyVal * PyVal) :=
  match vector with
  | PyDict d =>
      if negb (dict_contains "id" d) then
        Raise (mkExc ValidationError ("Vector at index " ++ str_of_nat i ++ " missing 'id' field"))
      else if negb (dict_contains "values" d) then
        Raise (mkExc ValidationError ("Vector at index " ++ str_of_nat i ++ " missing 'values' field"))
      else if negb (dict_contains "metadata" d) then
        Raise (mkExc ValidationError ("Vector at index " ++ str_of_nat i ++ " missing 'metadata' field"))
      else
        match dict_get "id" d, dict_get "values" d, dict_get "metadata" d with
        | Some id, Some values, Some metadata =>
            if negb (isinstance_list values) then
              Raise (mkExc ValidationError ("Vector values at index " ++ str_of_nat i ++ " must be a list"))
            else Return (id, values, metadata)
        | None, _, _ => Raise (mkExc KeyError "id")
        | _, None, _ => Raise (mkExc KeyError "values")
        | _, _, None => Raise (mkExc KeyError "metadata")
        end
  | _ => Raise (mkExc ValidationError ("Vector at index " ++ str_of_nat i ++ " must be a dictionary"))
  end.

(** [for i, vector in enumerate(vectors)] with the three accumulators. *)
Fixpoint upsert_loop (i : nat) (vectors : list PyVal)
    (ids embeddings metadatas : list PyVal)
    : Outcome (list PyVal * list PyVal * list PyVal) :=
  match vectors with
  | [] => Return (ids, embeddings, metadatas)
  | vector :: rest =>
      match reraise_as ValidationError
              ("Error formatting vector at index " ++ str_of_nat i ++ ": ")
              (check_vector i vector) with
      | Return (id, values, metadata) =>
          upsert_loop (S i) rest (ids ++ [id]) (embeddings ++ [values]) (metadatas ++ [metadata])
      | Raise e => Raise e
      end
  end.

Definition upsert (vectors : list PyVal) : M unit :=
  match vectors with
  | [] => raise (mkExc ValidationError "Vectors list cannot be empty")
  | _ =>
      cols <- lift (upsert_loop 0 vectors [] [] []) ;;
      let '(ids, embeddings, metadatas) := cols in
      try_except
        (native (collection_add ids embeddings metadatas))
        (fun e => raise (mkExc VectorOperationError ("Failed to upsert vectors: " ++ py_str e)))
  end.

(** One iteration of the [for i in range(...)] loop of [query]. *)
Definition format_result (results : QueryResult) (i : nat) : Outcome PyVal :=
  match list_item (ids results) 0 with
  | Raise e => Raise e
  | Return ids0 =>
  match list_item ids0 i with
  | Raise e => Raise e
  | Return id =>
  match list_item (metadatas results) 0 with
  | Raise e => Raise e
  | Return metadatas0 =>
  match list_item metadatas0 i with
  | Raise e => Raise e
  | Return metadata =>
  match list_item (distances results) 0 with
  | Raise e => Raise e
  | Return distances0 =>
  match list_item distances0 i with
  | Raise e => Raise e
  | Return distance =>
      Return (PyDict [("id", id); ("metadata", metadata); ("score", PyFloat (1 - distance)%float)])
  end end end end end end.

Fixpoint query_loop (results : QueryResult) (indices : list nat)
    (formatted_results : list PyVal) : Outcome (list PyVal) :=
  match indices with
  | [] => Return formatted_results
  | i :: rest =>
      match format_result results i with
      | Return r => query_loop results rest (formatted_results ++ [r])
      | Raise e => Raise e
      end
  end.

(** The statements of the [try] block after the native call. *)
Definition format_results (results : QueryResult) : Outcome (list PyVal) :=
  match list_item (ids results) 0 with
  | Raise e => Raise e
  | Return ids0 => query_loop results (seq 0 (List.length ids0)) []
  end.

Definition query (vector : PyVal) (top_k : Z) : M (list PyVal) :=
  match vector with
  | PyList xs =>
      match xs with
      | [] => raise (mkExc ValidationError "Query vector cannot be empty")
      | _ =>
          if negb (forallb isinstance_int_float xs) then
            raise (mkExc ValidationError "Query vector must contain only numbers")
          else if (top_k <? 1)%Z then
            raise (mkExc ValidationError "top_k must be greater than 0")
          else
            try_except
              (results <- native (collection_query [vector] top_k ["metadatas"; "distances"]) ;;
               lift (format_results results))
              (fun e => raise (mkExc VectorOperationError ("Failed to query vectors: " ++ py_str e)))
      end
  | _ => raise (mkExc ValidationError "Query vector must be a list")
  end.

End ChromaCollection.

(** ** [bevec/providers/chroma/adapter.py]: [ChromaClient] *)

Module ChromaClient.

Definition delete_collection (name : string) : M unit :=
  if String.eqb name "" then
    raise (mkExc ValidationError "Collection name cannot be empty")
  else
    try_except
      (try_except
         (native (client_delete_collection name))
         (fun e => if is_ValueError e then ret tt (* collection doesn't exist, ignore *)
                   else raise e))
      (fun e => raise (mkExc ProviderError ("Failed to delete collection: " ++ py_str e))).

End ChromaClient.

(** ** [bevec/providers/chroma/config.py] and the [Chroma] entry points *)

(** The process environment read by [os.getenv]. *)
Definition Env : Type := string -> option string.

(** [os.getenv(key, default)] *)
Definition getenv (env : Env) (key default : string) : string :=
  match env key with
  | Some v => v
  | None => default
  end.

(** [x or y] for an [Optional[str]] left operand and a [str] right operand;
    the result of [or] is the left operand when it is truthy. *)
Definition or_str (x : option string) (y : string) : string :=
  match x with
  | Some s => if String.eqb s "" then y else s
  | None => y
  end.

Module Chroma.

Definition get_persist_directory (env : Env) : string :=
  getenv env "CHROMA_PERSIST_DIRECTORY" "./chroma_db".

(** [init] returns a [ChromaClient] wrapping the native client; the handle
    carries no data of its own here. *)
Definition init (env : Env) (persist_directory : option string) : M unit :=
  try_except
    (let persist_directory := or_str persist_directory (get_persist_directory env) in
     if String.eqb persist_directory "" then
       raise (mkExc ConfigurationError "Persist directory not found")
     else
       native (chromadb_PersistentClient persist_directory false true))
    (fun e => raise (mkExc ConfigurationError ("Failed to initialize Chroma client: " ++ py_str e))).

Definition PersistentClient (env : Env) (path : option string) : M unit :=
  try_except
    (let path := or_str path (get_persist_directory env) in
     if String.eqb path "" then
       raise (mkExc ConfigurationError "Persist directory not found")
     else
       native (chromadb_PersistentClient path false true))
    (fun e => raise (mkExc ConfigurationError ("Failed to initialize Chroma client: " ++ py_str e))).

End Chroma.

(** ** [bevec/providers/pinecone/adapter.py]: [PineconeIndex] *)

Module PineconeIndex.

(** The body of the [try] inside the [for] loop of [upsert]. *)
Definition check_vector (i : nat) (vector : PyVal) : Outcome (PyVal * PyVal * PyVal) :=
  match vector with
  | PyDict d =>
      if negb (dict_contains "id" d) then
        Raise (mkExc ValidationError ("Vector at index " ++ str_of_nat i ++ " missing 'id' field"))
      else if negb (dict_contains "values" d) then
        Raise (mkExc ValidationError ("Vector at index " ++ str_of_nat i ++ " missing 'values' field"))
      else if negb (dict_contains "metadata" d) then
        Raise (mkExc ValidationError ("Vector at index " ++ str_of_nat i ++ " missing 'metadata' field"))
      else
        match dict_get "id" d, dict_get "values" d, dict_get "metadata" d with
        | Some id, Some values, Some metadata =>
            if negb (isinstance_list values) then
              Raise (mkExc ValidationError ("Vector values at index " ++ str_of_nat i ++ " must be a list"))
            else Return (id, values, metadata)
        | None, _, _ => Raise (mkExc KeyError "id")
        | _, None, _ => Raise (mkExc KeyError "values")
        | _, _, None => Raise (mkExc KeyError "metadata")
        end
  | _ => Raise (mkExc ValidationError ("Vector at index " ++ str_of_nat i ++ " must be a dictionary"))
  end.

(** [for i, vector in enumerate(vectors)] building [formatted_vectors]. *)
Fixpoint upsert_loop (i : nat) (vectors : list PyVal)
    (formatted_vectors : list (PyVal * PyVal * PyVal))
    : Outcome (list (PyVal * PyVal * PyVal)) :=
  match vectors with
  | [] => Return formatted_vectors
  | vector :: rest =>
      match reraise_as ValidationError
              ("Error formatting vector at index " ++ str_of_nat i ++ ": ")
              (check_vector i vector) with
      | Return t => upsert_loop (S i) rest (formatted_vectors ++ [t])
      | Raise e => Raise e
      end
  end.

Definition upsert (vectors : list PyVal) : M unit :=
  match vectors with
  | [] => raise (mkExc ValidationError "Vectors list cannot be empty")
  | _ =>
      formatted_vectors <- lift (upsert_loop 0 vectors []) ;;
      try_except
        (native (index_upsert formatted_vectors))
        (fun e => raise (mkExc VectorOperationError ("Failed to upsert vectors: " ++ py_str e)))
  end.

(** [results["matches"]] *)
Definition get_matches (results : list (string * PyVal)) : Outcome PyVal :=
  match dict_get "matches" results with
  | Some matches => Return matches
  | None => Raise (mkExc KeyError "matches")
  end.

Definition query (vector : PyVal) (top_k : Z) : M PyVal :=
  match vector with
  | PyList xs =>
      match xs with
      | [] => raise (mkExc ValidationError "Query vector cannot be empty")
      | _ =>
          if negb (forallb isinstance_int_float xs) then
            raise (mkExc ValidationError "Query vector must contain only numbers")
          else if (top_k <? 1)%Z then
            raise (mkExc ValidationError "top_k must be greater than 0")
          else
            try_except
              (results <- native (index_query vector top_k) ;;
               lift (get_matches results))
              (fun e => raise (mkExc VectorOperationError ("Failed to query vectors: " ++ py_str e)))
      end
  | _ => raise (mkExc ValidationError "Query vector must be a list")
  end.

End PineconeIndex.

(** ** [bevec/providers/pinecone/adapter.py]: the [Pinecone] client *)

Module Pinecone.

Definition valid_metrics : list string := ["cosine"; "euclidean"; "dotproduct"].

(** [x in xs] on a list of strings *)
Definition str_in (x : string) (xs : list string) : bool := existsb (String.eqb x) xs.

(** [', '.join(xs)] *)
Fixpoint join (sep : string) (xs : list string) : string :=
  match xs with
  | [] => ""
  | [x] => x
  | x :: rest => x ++ sep ++ join sep rest
  end.

Definition create_index (name : string) (dimension : Z) (metric : string) : M unit :=
  if String.eqb name "" then
    raise (mkExc ValidationError "Index name cannot be empty")
  else if (dimension <? 1)%Z then
    raise (mkExc ValidationError "Dimension must be greater than 0")
  else if negb (str_in metric valid_metrics) then
    raise (mkExc ValidationError ("Metric must be one of: " ++ join ", " valid_metrics))
  else
    try_except
      (native (client_create_index name dimension metric))
      (fun e => raise (mkExc ProviderError ("Failed to create index: " ++ py_str e))).

Definition delete_index (name : string) : M unit :=
  if String.eqb name "" then
    raise (mkExc ValidationError "Index name cannot be empty")
  else
    try_except
      (native (client_delete_index name))
      (fun e => raise (mkExc ProviderError ("Failed to delete index: " ++ py_str e))).

End Pinecone.

(** ** [bevec/core/registry.py] *)

(** [str.lower()] on code points below 256: the ASCII capitals and the
    Latin-1 capitals U+00C0..U+00DE (U+00D7, the multiplication sign, is not
    a letter) move up by 32. *)
Definition lower_char (c : ascii) : ascii :=
  let n := nat_of_ascii c in
  if (65 <=? n)%nat && (n <=? 90)%nat then ascii_of_nat (n + 32)
  else if (192 <=? n)%nat && (n <=? 222)%nat && negb (n =? 215)%nat then ascii_of_nat (n + 32)
  else c.

Fixpoint lower (s : string) : string :=
  match s with
  | EmptyString => EmptyString
  | String c rest => String (lower_char c) (lower rest)
  end.

Module ProviderRegistry.
Section Registry.

(** The registered provider classes. *)
Variable Cls : Type.

(** [self._providers]: a dict, which keeps its keys in insertion order. *)
Definition Providers : Type := list (string * Cls).

(** [ProviderRegistry()] *)
Definition init : Providers := [].

(** [d[k] = v]: an existing key keeps its position, a new key goes last. *)
Fixpoint dict_set (k : string) (v : Cls) (d : Providers) : Providers :=
  match d with
  | [] => [(k, v)]
  | (k', v') :: rest =>
      if String.eqb k k' then (k', v) :: rest else (k', v') :: dict_set k v rest
  end.

(** [registry.register(name)(cls)]: the decorator stores [cls] and returns it. *)
Definition register (self : Providers) (name : string) (cls : Cls) : Providers * Cls :=
  (dict_set name cls self, cls).

Definition get (self : Providers) (name : string) : Outcome Cls :=
  if negb (dict_contains name self) then
    Raise (mkExc KeyError ("Provider '" ++ name ++ "' not found"))
  else
    match dict_get name self with
    | Some cls => Return cls
    | None => Raise (mkExc KeyError name)
    end.

(** Module-level functions over the global [registry]. *)

Definition register_provider (registry : Providers) (name : string) (cls : Cls)
    : Providers * Cls :=
  register registry name cls.

Definition get_provider (registry : Providers) (name : string) : Outcome Cls :=
  let name := lower name in
  if negb (dict_contains name registry) then
    Raise (mkExc ValueError ("Unsupported provider: " ++ name))
  else
    match dict_get name registry with
    | Some cls => Return cls
    | None => Raise (mkExc KeyError name)
    end.

(** [list(registry._providers.keys())] *)
Definition list_providers (registry : Providers) : list string := map fst registry.

(** A sequence of [register] calls, applied in order to a registry. *)
Definition register_all (self : Providers) (calls : list (string * Cls)) : Providers :=
  fold_left (fun r call => fst (register r (fst call) (snd call))) calls self.

End Registry.
End ProviderRegistry.

Arguments ProviderRegistry.init {Cls}.
Arguments ProviderRegistry.dict_set {Cls} k v d.
Arguments ProviderRegistry.register {Cls} self name cls.
Arguments ProviderRegistry.get {Cls} self name.
Arguments ProviderRegistry.register_provider {Cls} registry name cls.
Arguments ProviderRegistry.get_provider {Cls} registry name.
Arguments ProviderRegistry.list_providers {Cls} registry.
Arguments ProviderRegistry.register_all {Cls} self calls.

(** ** Client-level native calls that construct or hand out SDK objects *)

(** An SDK object (a native client, index or collection), known to the
    adapters only by identity. *)
Definition Handle : Type := nat.

Inductive ClientCall : Type :=
| new_Pinecone (api_key : string)          (* _Pinecone(api_key=...) *)
| client_list_indexes                      (* self._client.list_indexes() *)
| index_list_names (response : Handle)     (* .names() on its result *)
| client_Index (name : string)
| client_get_collection (name : string)
| client_create_collection (name : string) (metadata : list (string * string)).

Definition ClientRet (c : ClientCall) : Type :=
  match c with
  | index_list_names _ => list string
  | _ => Handle
  end.

Definition ClientSdk : Type :=
  forall (history : list ClientCall) (c : ClientCall), Outcome (ClientRet c).

(** The monad of the adapter code over these calls. *)
Module ClientM.

Definition M (A : Type) : Type := ClientSdk -> list ClientCall -> list ClientCall * Outcome A.

Definition ret {A} (a : A) : M A := fun _ h => (h, Return a).

Definition raise {A} (e : Exc) : M A := fun _ h => (h, Raise e).

Definition bind {A B} (m : M A) (k : A -> M B) : M B :=
  fun sdk h =>
    match m sdk h with
    | (h', Return a) => k a sdk h'
    | (h', Raise e) => (h', Raise e)
    end.

Definition try_except {A} (m : M A) (handler : Exc -> M A) : M A :=
  fun sdk h =>
    match m sdk h with
    | (h', Return a) => (h', Return a)
    | (h', Raise e) => handler e sdk h'
    end.

Definition native (c : ClientCall) : M (ClientRet c) := fun sdk h => (h ++ [c], sdk h c).

End ClientM.

(** [x or y] for two [Optional[str]] operands. *)
Definition or_opt (x y : option string) : option string :=
  match x with
  | Some s => if String.eqb s "" then y else x
  | None => y
  end.

(** ** [bevec/providers/pinecone/config.py] and the rest of the [Pinecone] client *)

Module PineconeClient.

Definition get_api_key (env : Env) : option string := env "PINECONE_API_KEY".

Definition get_environment (env : Env) : option string := env "PINECONE_ENVIRONMENT".

(** [Pinecone(api_key)]: the adapter object is the native client it wraps. *)
Definition __init__ (api_key : string) : ClientM.M Handle :=
  ClientM.try_except
    (ClientM.native (new_Pinecone api_key))
    (fun e => ClientM.raise
                (mkExc ConfigurationError ("Failed to create Pinecone client: " ++ py_str e))).

Definition init (env : Env) (api_key : option string) : ClientM.M Handle :=
  ClientM.try_except
    (match or_opt api_key (get_api_key env) with
     | Some api_key =>
         if String.eqb api_key "" then
           ClientM.raise (mkExc ConfigurationError "Pinecone API key not found")
         else __init__ api_key
     | None => ClientM.raise (mkExc ConfigurationError "Pinecone API key not found")
     end)
    (fun e => ClientM.raise
                (mkExc ConfigurationError ("Failed to initialize Pinecone client: " ++ py_str e))).



End PineconeClient.

(** ** [bevec/providers/chroma/adapter.py]: [ChromaClient.get_or_create_collection] *)

Module ChromaCollections.

(** The [ChromaCollection] returned wraps the native collection handed out. *)
Definition get_or_create_collection (name : string) : ClientM.M Handle :=
  if String.eqb name "" then
    ClientM.raise (mkExc ValidationError "Collection name cannot be empty")
  else
    ClientM.try_except
      (ClientM.try_except
         (ClientM.native (client_get_collection name))
         (fun e => if is_ValueError e
                   then (* collection doesn't exist, create it *)
                     ClientM.native (client_create_collection name [("hnsw:space", "cosine")])
                   else ClientM.raise e))
      (fun e => ClientM.raise
                  (mkExc ProviderError ("Failed to get or create collection: " ++ py_str e))).

End ChromaCollections.

(** * Properties *)

(** ** Vocabulary of the specification *)

(** A record of an upsert batch is malformed when it is not a dictionary,
    lacks one of the fields [id], [values], [metadata], or has a [values]
    field that is not a list. *)
Definition malformed_record (v : PyVal) : bool :=
  match v with
  | PyDict d =>
      negb (dict_contains "id" d) || negb (dict_contains "values" d)
      || negb (dict_contains "metadata" d)
      || match dict_get "values" d with
         | Some (PyList _) => false
         | _ => true
         end
  | _ => true
  end.

(** The complaint about a malformed record at index [i]. *)
Definition violation (i : nat) (v : PyVal) : string :=
  match v with
  | PyDict d =>
      if negb (dict_contains "id" d) then
        "Vector at index " ++ str_of_nat i ++ " missing 'id' field"
      else if negb (dict_contains "values" d) then
        "Vector at index " ++ str_of_nat i ++ " missing 'values' field"
      else if negb (dict_contains "metadata" d) then
        "Vector at index " ++ str_of_nat i ++ " missing 'metadata' field"
      else "Vector values at index " ++ str_of_nat i ++ " must be a list"
  | _ => "Vector at index " ++ str_of_nat i ++ " must be a dictionary"
  end.

(** [v] is a well-formed record with the given three fields. *)
Definition record_of (v : PyVal) (t : PyVal * PyVal * PyVal) : Prop :=
  exists d,
    v = PyDict d /\
    dict_get "id" d = Some (fst (fst t)) /\
    dict_get "values" d = Some (snd (fst t)) /\
    isinstance_list (snd (fst t)) = true /\
    dict_get "metadata" d = Some (snd t).

(** A query is valid when its vector is a non-empty list of numbers and
    [top_k] is at least 1. *)
Definition valid_query (vector : PyVal) (top_k : Z) : Prop :=
  exists xs, vector = PyList xs /\ xs <> [] /\
             forallb isinstance_int_float xs = true /\ (1 <= top_k)%Z.

(** The canonical result built from one Chroma match. *)
Definition canonical_result (m : PyVal * PyVal * float) : PyVal :=
  let '(id, metadata, distance) := m in
  PyDict [("id", id); ("metadata", metadata); ("score", PyFloat (1 - distance)%float)].

(** Names in the order in which each was first registered. *)
Definition registration_order (names : list string) : list string :=
  fold_left (fun seen n => if existsb (String.eqb n) seen then seen else seen ++ [n]) names [].

(** ** Concrete SDK behaviours and environments used in the scenarios *)

(** The SDK of the test suite: every call succeeds; the Pinecone index
    reports one match with score 0.9, the Chroma collection one match at
    distance 0.1. *)
Definition sdk_fixture : Sdk :=
  fun _ c =>
    match c as c0 return Outcome (Ret c0) with
    | index_query _ _ =>
        Return [("matches",
                 PyList [PyDict [("id", PyStr "1"); ("score", PyFloat 0.9);
                                 ("metadata", PyDict [("text", PyStr "test1")])]])]
    | collection_query _ _ _ =>
        Return (mkQueryResult [[PyStr "1"]] [[PyDict [("text", PyStr "test1")]]] [[0.1%float]])
    | index_upsert _ => Return tt
    | collection_add _ _ _ => Return tt
    | client_create_index _ _ _ => Return tt
    | client_delete_index _ => Return tt
    | client_delete_collection _ => Return tt
    | chromadb_PersistentClient _ _ _ => Return tt
    end.



(** No variable set. *)
Definition env_unset : Env := fun _ => None.

(** [CHROMA_PERSIST_DIRECTORY] set to the empty string. *)
Definition env_empty_dir : Env :=
  fun key => if String.eqb key "CHROMA_PERSIST_DIRECTORY" then Some "" else None.


(** ** Further vocabulary and scenarios *)

(** The outcome raises, if at all, an exception of one of the given classes. *)
Definition raises_only {A : Type} (classes : list ExcClass) (o : Outcome A) : Prop :=
  match o with
  | Return _ => True
  | Raise e => In (exc_class e) classes
  end.

(** The first column of a native Chroma response field ([field[0]]), empty
    when the field has no column at all. *)
Definition column0 {A : Type} (field : list (list A)) : list A := hd [] field.

(** An SDK whose Pinecone query response has no ["matches"] key. *)
Definition sdk_no_matches_key : Sdk :=
  fun _ c =>
    match c as c0 return Outcome (Ret c0) with
    | index_query _ _ => Return [("namespace", PyStr "")]
    | collection_query _ _ _ => Return (mkQueryResult [] [] [])
    | index_upsert _ => Return tt
    | collection_add _ _ _ => Return tt
    | client_create_index _ _ _ => Return tt
    | client_delete_index _ => Return tt
    | client_delete_collection _ => Return tt
    | chromadb_PersistentClient _ _ _ => Return tt
    end.

(** An SDK whose Chroma query reports two ids, one metadata and three
    distances. *)
Definition sdk_ragged : Sdk :=
  fun _ c =>
    match c as c0 return Outcome (Ret c0) with
    | index_query _ _ => Return []
    | collection_query _ _ _ =>
        Return (mkQueryResult [[PyStr "1"; PyStr "2"]] [[PyDict []]]
                              [[0.1%float; 0.5%float; 0.75%float]])
    | index_upsert _ => Return tt
    | collection_add _ _ _ => Return tt
    | client_create_index _ _ _ => Return tt
    | client_delete_index _ => Return tt
    | client_delete_collection _ => Return tt
    | chromadb_PersistentClient _ _ _ => Return tt
    end.

(** An SDK whose Chroma query reports one id with surplus metadatas and
    distances. *)
Definition sdk_surplus : Sdk :=
  fun _ c =>
    match c as c0 return Outcome (Ret c0) with
    | index_query _ _ => Return []
    | collection_query _ _ _ =>
        Return (mkQueryResult [[PyStr "1"]] [[PyDict []; PyDict []]]
                              [[0.25%float; 0.5%float; 0.75%float]])
    | index_upsert _ => Return tt
    | collection_add _ _ _ => Return tt
    | client_create_index _ _ _ => Return tt
    | client_delete_index _ => Return tt
    | client_delete_collection _ => Return tt
    | chromadb_PersistentClient _ _ _ => Return tt
    end.

(** A client SDK on which every call succeeds: handles are numbered by the
    position of the call, the only index is "test-index". *)
Definition client_sdk_fixture : ClientSdk :=
  fun h c =>
    match c as c0 return Outcome (ClientRet c0) with
    | index_list_names _ => Return ["test-index"]
    | new_Pinecone _ => Return (List.length h)
    | client_list_indexes => Return (List.length h)
    | client_Index _ => Return (List.length h)
    | client_get_collection _ => Return (List.length h)
    | client_create_collection _ _ => Return (List.length h)
    end.

(** A client SDK on which every call raises [e]. *)
Definition client_sdk_raising (e : Exc) : ClientSdk := fun _ _ => Raise e.

(** A client SDK with no collection yet: [get_collection] raises
    [ValueError], [create_collection] succeeds. *)
Definition client_sdk_no_collection : ClientSdk :=
  fun h c =>
    match c as c0 return Outcome (ClientRet c0) with
    | index_list_names _ => Return []
    | new_Pinecone _ => Return (List.length h)
    | client_list_indexes => Return (List.length h)
    | client_Index _ => Return (List.length h)
    | client_get_collection _ => Raise (mkExc ValueError "Collection not found")
    | client_create_collection _ _ => Return (List.length h)
    end.

(** [PINECONE_API_KEY] set to "test-api-key". *)
Definition env_api_key : Env :=
  fun key => if String.eqb key "PINECONE_API_KEY" then Some "test-api-key" else None.

(** ** Chroma: conversion of the query response *)

Section ChromaQuery.

Variable results : QueryResult.
Variables (ids0 metadatas0 : list PyVal) (distances0 : list float).
Variables (ids' metadatas' : list (list PyVal)) (distances' : list (list float)).
Hypothesis Hids : ids results = ids0 :: ids'.
Hypothesis Hmetadatas : metadatas results = metadatas0 :: metadatas'.
Hypothesis Hdistances : distances results = distances0 :: distances'.

Lemma format_result_at i id metadata distance :
  nth_error ids0 i = Some id ->
  nth_error metadatas0 i = Some metadata ->
  nth_error distances0 i = Some distance ->
  ChromaCollection.format_result results i = Return (canonical_result (id, metadata, distance)).
Proof.
  intros Hi Hm Hd. unfold ChromaCollection.format_result, list_item.
  rewrite Hids, Hmetadatas, Hdistances. simpl.
  now rewrite Hi, Hm, Hd.
Qed.

Lemma query_loop_zip :
  forall (si sm : list PyVal) (sd : list float) (pi pm : list PyVal) (pd : list float) acc,
    ids0 = pi ++ si -> metadatas0 = pm ++ sm -> distances0 = pd ++ sd ->
    List.length pm = List.length pi -> List.length pd = List.length pi ->
    List.length sm = List.length si -> List.length sd = List.length si ->
    ChromaCollection.query_loop results (seq (List.length pi) (List.length si)) acc
    = Return (acc ++ map canonical_result (combine (combine si sm) sd)).
Proof.
  induction si as [|id si IH]; intros sm sd pi pm pd acc Ei Em Ed Lm Ld Lsm Lsd.
  - simpl. now rewrite app_nil_r.
  - destruct sm as [|m sm]; [discriminate|]. destruct sd as [|d sd]; [discriminate|].
    simpl in Lsm, Lsd. injection Lsm as Lsm. injection Lsd as Lsd.
    cbn [List.length seq ChromaCollection.query_loop].
    rewrite (format_result_at (List.length pi) id m d).
    + replace (S (List.length pi)) with (List.length (pi ++ [id]))
        by (rewrite length_app; simpl; lia).
      rewrite (IH sm sd (pi ++ [id]) (pm ++ [m]) (pd ++ [d]));
        rewrite <- ?app_assoc, ?length_app; simpl; auto; lia.
    + rewrite Ei, nth_error_app2, Nat.sub_diag by lia. reflexivity.
    + rewrite Em, nth_error_app2 by lia. rewrite Lm, Nat.sub_diag. reflexivity.
    + rewrite Ed, nth_error_app2 by lia. rewrite Ld, Nat.sub_diag. reflexivity.
Qed.

Lemma format_results_zip :
  List.length metadatas0 = List.length ids0 ->
  List.length distances0 = List.length ids0 ->
  ChromaCollection.format_results results
  = Return (map canonical_result (combine (combine ids0 metadatas0) distances0)).
Proof.
  intros Lm Ld. unfold ChromaCollection.format_results, list_item.
  rewrite Hids. simpl.
  exact (query_loop_zip ids0 metadatas0 distances0 [] [] [] [] eq_refl eq_refl eq_refl
           eq_refl eq_refl Lm Ld).
Qed.

End ChromaQuery.

Lemma chroma_query_valid sdk h vector top_k :
  valid_query vector top_k ->
  ChromaCollection.query vector top_k sdk h
  = try_except
      (results <- native (collection_query [vector] top_k ["metadatas"; "distances"]) ;;
       lift (ChromaCollection.format_results results))
      (fun e => raise (mkExc VectorOperationError ("Failed to query vectors: " ++ py_str e)))
      sdk h.
Proof.
  intros (xs & -> & Hne & Hnum & Hk). unfold ChromaCollection.query.
  destruct xs as [|x xs]; [congruence|].
  rewrite Hnum. simpl negb. cbv iota.
  destruct (Z.ltb_spec top_k 1); [lia|]. reflexivity.
Qed.

(** What [query] does with a native response whose three columns are
    aligned. *)
Lemma chroma_query_formats :
  forall (sdk : Sdk) h vector top_k results ids0 ids' metadatas0 metadatas' distances0 distances',
    valid_query vector top_k ->
    sdk h (collection_query [vector] top_k ["metadatas"; "distances"]) = Return results ->
    ids results = ids0 :: ids' ->
    metadatas results = metadatas0 :: metadatas' ->
    distances results = distances0 :: distances' ->
    List.length metadatas0 = List.length ids0 ->
    List.length distances0 = List.length ids0 ->
    ChromaCollection.query vector top_k sdk h
    = (h ++ [collection_query [vector] top_k ["metadatas"; "distances"]],
       Return (map canonical_result (combine (combine ids0 metadatas0) distances0))).
Proof.
  intros sdk h vector top_k results ids0 ids' metadatas0 metadatas' distances0 distances'
         Hvalid Hsdk Hi Hm Hd Lm Ld.
  rewrite chroma_query_valid by assumption.
  unfold try_except, bind, native, lift. rewrite Hsdk.
  now rewrite (format_results_zip results ids0 metadatas0 distances0 ids' metadatas' distances').
Qed.

(** C3. For a valid query whose native response lists, for its single
    query embedding, as many metadatas and distances as ids, the Chroma
    adapter issues one native query and returns one canonical result per
    match, in order, whose score is [1 - distance] in binary64 arithmetic;
    distance 0.1 gives exactly 0.9, and distances outside [0, 1] go through
    the same subtraction (1.5 gives -0.5, -0.25 gives 1.25). *)
Theorem chroma_query_score_is_one_minus_distance :
  forall (sdk : Sdk) h vector top_k results ids0 ids' metadatas0 metadatas' distances0 distances',
    valid_query vector top_k ->
    sdk h (collection_query [vector] top_k ["metadatas"; "distances"]) = Return results ->
    ids results = ids0 :: ids' ->
    metadatas results = metadatas0 :: metadatas' ->
    distances results = distances0 :: distances' ->
    List.length metadatas0 = List.length ids0 ->
    List.length distances0 = List.length ids0 ->
    ChromaCollection.query vector top_k sdk h
    = (h ++ [collection_query [vector] top_k ["metadatas"; "distances"]],
       Return (map canonical_result (combine (combine ids0 metadatas0) distances0)))
    /\ (forall i id metadata distance,
          nth_error ids0 i = Some id ->
          nth_error metadatas0 i = Some metadata ->
          nth_error distances0 i = Some distance ->
          nth_error (map canonical_result (combine (combine ids0 metadatas0) distances0)) i
          = Some (PyDict [("id", id); ("metadata", metadata);
                          ("score", PyFloat (1 - distance)%float)]))
    /\ canonical_result (PyStr "1", PyDict [("text", PyStr "test1")], 0.1%float)
       = PyDict [("id", PyStr "1"); ("metadata", PyDict [("text", PyStr "test1")]);
                 ("score", PyFloat 0.9%float)]
    /\ canonical_result (PyStr "1", PyNone, 1.5%float)
       = PyDict [("id", PyStr "1"); ("metadata", PyNone); ("score", PyFloat (-0.5)%float)]
    /\ canonical_result (PyStr "1", PyNone, (-0.25)%float)
       = PyDict [("id", PyStr "1"); ("metadata", PyNone); ("score", PyFloat 1.25%float)].
Proof.
  intros sdk h vector top_k results ids0 ids' metadatas0 metadatas' distances0 distances'
         Hvalid Hsdk Hi Hm Hd Lm Ld.
  split; [|split; [|repeat split; reflexivity]].
  - now apply (chroma_query_formats sdk h vector top_k results ids0 ids' metadatas0 metadatas'
                 distances0 distances').
  - intros i id metadata distance Ni Nm Nd.
    rewrite nth_error_map.
    assert (Hc : nth_error (combine (combine ids0 metadatas0) distances0) i
                 = Some (id, metadata, distance)).
    { clear Hi Hm Hd Hsdk. revert i metadatas0 distances0 Lm Ld Ni Nm Nd.
      induction ids0 as [|a l IH]; intros i ms ds Lm Ld Ni Nm Nd.
      - destruct i; discriminate.
      - destruct ms as [|m ms]; [discriminate|]. destruct ds as [|d ds]; [discriminate|].
        destruct i as [|i]; simpl in *.
        + congruence.
        + apply IH; auto. }
    now rewrite Hc.
Qed.

Lemma chroma_query_score_witness :
  ChromaCollection.query (PyList [PyFloat 0.1; PyFloat 0.2; PyFloat 0.3]) 1 sdk_fixture []
  = ([collection_query [PyList [PyFloat 0.1; PyFloat 0.2; PyFloat 0.3]] 1 ["metadatas"; "distances"]],
     Return [PyDict [("id", PyStr "1"); ("metadata", PyDict [("text", PyStr "test1")]);
                     ("score", PyFloat 0.9%float)]]).
Proof.
  refine (proj1 (chroma_query_score_is_one_minus_distance sdk_fixture []
            (PyList [PyFloat 0.1; PyFloat 0.2; PyFloat 0.3]) 1
            (mkQueryResult [[PyStr "1"]] [[PyDict [("text", PyStr "test1")]]] [[0.1%float]])
            [PyStr "1"] [] [PyDict [("text", PyStr "test1")]] [] [0.1%float] []
            _ eq_refl eq_refl eq_refl eq_refl eq_refl eq_refl)).
  exists [PyFloat 0.1; PyFloat 0.2; PyFloat 0.3].
  repeat split; [discriminate | lia].
Defined.


(** ** Validation of upsert batches *)

Lemma append_assoc (s1 s2 s3 : string) : ((s1 ++ s2) ++ s3 = s1 ++ s2 ++ s3)%string.
Proof.
  induction s1 as [|c s1 IH]; simpl; [reflexivity | now rewrite IH].
Qed.

Lemma reraise_validation {A : Type} (prefix msg : string) :
  @reraise_as A ValidationError prefix (Raise (mkExc ValidationError msg))
  = Raise (mkExc ValidationError (prefix ++ msg)).
Proof. reflexivity. Qed.

Lemma dict_contains_get {V : Type} (k : string) (d : list (string * V)) :
  dict_contains k d = true -> exists v, dict_get k d = Some v.
Proof.
  unfold dict_contains. destruct (dict_get k d) as [v|]; [eauto | discriminate].
Qed.

Lemma dict_get_contains {V : Type} (k : string) (d : list (string * V)) (v : V) :
  dict_get k d = Some v -> dict_contains k d = true.
Proof.
  unfold dict_contains. now intros ->.
Qed.

(** Both adapters run the same checks on a record; the case analysis is
    shared. *)
Ltac split_record d :=
  let Hid := fresh "Hid" in
  let Hvalues := fresh "Hvalues" in
  let Hmetadata := fresh "Hmetadata" in
  destruct (dict_contains "id" d) eqn:Hid; simpl; try reflexivity; try discriminate;
  destruct (dict_contains "values" d) eqn:Hvalues; simpl; try reflexivity; try discriminate;
  destruct (dict_contains "metadata" d) eqn:Hmetadata; simpl; try reflexivity; try discriminate;
  let id := fresh "id" in
  let values := fresh "values" in
  let metadata := fresh "metadata" in
  let Gid := fresh "Gid" in
  let Gvalues := fresh "Gvalues" in
  let Gmetadata := fresh "Gmetadata" in
  destruct (dict_contains_get _ _ Hid) as [id Gid];
  destruct (dict_contains_get _ _ Hvalues) as [values Gvalues];
  destruct (dict_contains_get _ _ Hmetadata) as [metadata Gmetadata];
  rewrite ?Gid, ?Gvalues, ?Gmetadata.

Ltac destruct_values :=
  match goal with
  | H : dict_get "values" _ = Some ?x |- _ => destruct x
  end.

Ltac solve_check_malformed :=
  let d := fresh "d" in
  intros ? [ | | | | | |d]; simpl; try reflexivity;
  split_record d; destruct_values; simpl; intros; try reflexivity; discriminate.

Ltac solve_check_record :=
  let d := fresh "d" in
  let Gid := fresh "Gid" in
  let Gvalues := fresh "Gvalues" in
  let Hlist := fresh "Hlist" in
  let Gmetadata := fresh "Gmetadata" in
  intros ? ? [[? ?] ?] (d & -> & Gid & Gvalues & Hlist & Gmetadata);
  simpl in *;
  rewrite (dict_get_contains _ _ _ Gid), (dict_get_contains _ _ _ Gvalues),
    (dict_get_contains _ _ _ Gmetadata), Gid, Gvalues, Gmetadata;
  simpl; now rewrite Hlist.

Lemma pinecone_check_malformed :
  forall i v, malformed_record v = true ->
    PineconeIndex.check_vector i v = Raise (mkExc ValidationError (violation i v)).
Proof. unfold PineconeIndex.check_vector, violation. solve_check_malformed. Qed.

Lemma chroma_check_malformed :
  forall i v, malformed_record v = true ->
    ChromaCollection.check_vector i v = Raise (mkExc ValidationError (violation i v)).
Proof. unfold ChromaCollection.check_vector, violation. solve_check_malformed. Qed.

Lemma pinecone_check_record :
  forall i v t, record_of v t -> PineconeIndex.check_vector i v = Return t.
Proof. unfold PineconeIndex.check_vector. solve_check_record. Qed.

Lemma chroma_check_record :
  forall i v t, record_of v t -> ChromaCollection.check_vector i v = Return t.
Proof. unfold ChromaCollection.check_vector. solve_check_record. Qed.

(** A record that is not malformed is a well-formed record. *)
Lemma not_malformed_record v :
  malformed_record v = false -> exists t, record_of v t.
Proof.
  destruct v as [ | | | | | |d]; simpl; try discriminate.
  split_record d.
  match goal with
  | Gi : dict_get "id" d = Some ?id, Gv : dict_get "values" d = Some ?values,
    Gm : dict_get "metadata" d = Some ?metadata |- _ =>
      destruct values as [ | | | | |items| ]; try discriminate;
      intros _; exists (id, PyList items, metadata); exists d; simpl; auto
  end.
Qed.

Lemma record_not_malformed v t : record_of v t -> malformed_record v = false.
Proof.
  destruct t as [[id values] metadata]. intros (d & -> & Gid & Gvalues & Hlist & Gmetadata).
  simpl in *.
  rewrite (dict_get_contains _ _ _ Gid), (dict_get_contains _ _ _ Gvalues),
    (dict_get_contains _ _ _ Gmetadata), Gvalues.
  destruct values; simpl in *; congruence.
Qed.

(** The first malformed record of a batch that has one. *)
Lemma first_malformed vectors :
  existsb malformed_record vectors = true ->
  exists pre bad post,
    vectors = pre ++ bad :: post /\
    forallb (fun v => negb (malformed_record v)) pre = true /\
    malformed_record bad = true.
Proof.
  induction vectors as [|v vectors IH]; simpl; [discriminate|].
  destruct (malformed_record v) eqn:Hv; simpl.
  - intros _. exists [], v, vectors. auto.
  - intros H. destruct (IH H) as (pre & bad & post & -> & Hpre & Hbad).
    exists (v :: pre), bad, post. simpl. rewrite Hv. auto.
Qed.

Lemma pinecone_loop_stops pre bad post :
  forallb (fun v => negb (malformed_record v)) pre = true ->
  malformed_record bad = true ->
  forall i formatted_vectors,
    PineconeIndex.upsert_loop i (pre ++ bad :: post) formatted_vectors
    = Raise (mkExc ValidationError
               ("Error formatting vector at index " ++ str_of_nat (i + List.length pre) ++ ": "
                ++ violation (i + List.length pre) bad)).
Proof.
  intros Hpre Hbad.
  induction pre as [|v pre IH]; intros i acc; cbn [app PineconeIndex.upsert_loop List.length].
  - rewrite Nat.add_0_r, (pinecone_check_malformed _ _ Hbad), reraise_validation.
    now rewrite !append_assoc.
  - simpl in Hpre. apply andb_prop in Hpre as [Hv Hpre].
    apply negb_true_iff in Hv. destruct (not_malformed_record _ Hv) as [t Ht].
    rewrite (pinecone_check_record _ _ _ Ht). simpl.
    rewrite (IH Hpre). now rewrite Nat.add_succ_comm.
Qed.

Lemma chroma_loop_stops pre bad post :
  forallb (fun v => negb (malformed_record v)) pre = true ->
  malformed_record bad = true ->
  forall i ids embeddings metadatas,
    ChromaCollection.upsert_loop i (pre ++ bad :: post) ids embeddings metadatas
    = Raise (mkExc ValidationError
               ("Error formatting vector at index " ++ str_of_nat (i + List.length pre) ++ ": "
                ++ violation (i + List.length pre) bad)).
Proof.
  intros Hpre Hbad.
  induction pre as [|v pre IH]; intros i a b c; cbn [app ChromaCollection.upsert_loop List.length].
  - rewrite Nat.add_0_r, (chroma_check_malformed _ _ Hbad), reraise_validation.
    now rewrite !append_assoc.
  - simpl in Hpre. apply andb_prop in Hpre as [Hv Hpre].
    apply negb_true_iff in Hv. destruct (not_malformed_record _ Hv) as [[[x y] z] Ht].
    rewrite (chroma_check_record _ _ _ Ht). simpl.
    rewrite (IH Hpre). now rewrite Nat.add_succ_comm.
Qed.

Lemma pinecone_loop_formats vectors tuples :
  Forall2 record_of vectors tuples ->
  forall i formatted_vectors,
    PineconeIndex.upsert_loop i vectors formatted_vectors = Return (formatted_vectors ++ tuples).
Proof.
  induction 1 as [|v t vectors tuples Hv _ IH]; intros i acc; simpl.
  - now rewrite app_nil_r.
  - rewrite (pinecone_check_record _ _ _ Hv). simpl. rewrite IH. now rewrite <- app_assoc.
Qed.

Lemma chroma_loop_formats vectors tuples :
  Forall2 record_of vectors tuples ->
  forall i ids embeddings metadatas,
    ChromaCollection.upsert_loop i vectors ids embeddings metadatas
    = Return (ids ++ map (fun t => fst (fst t)) tuples,
              embeddings ++ map (fun t => snd (fst t)) tuples,
              metadatas ++ map snd tuples).
Proof.
  induction 1 as [|v [[x y] z] vectors tuples Hv _ IH]; intros i a b c; simpl.
  - now rewrite !app_nil_r.
  - rewrite (chroma_check_record _ _ _ Hv). simpl. rewrite IH. now rewrite <- !app_assoc.
Qed.

(** C1. A batch that is empty or holds a malformed record makes [upsert],
    on both adapters, raise [ValidationError] without any native call (the
    history of native calls is unchanged).  For a non-empty batch the
    message names the index of the first malformed record, all records
    before it being well-formed. *)
Theorem upsert_rejects_malformed_batch :
  forall (sdk : Sdk) (h : list Call) (vectors : list PyVal),
    vectors = [] \/ existsb malformed_record vectors = true ->
    exists msg,
      PineconeIndex.upsert vectors sdk h = (h, Raise (mkExc ValidationError msg)) /\
      ChromaCollection.upsert vectors sdk h = (h, Raise (mkExc ValidationError msg)) /\
      ((vectors = [] /\ msg = "Vectors list cannot be empty") \/
       exists pre bad post,
         vectors = pre ++ bad :: post /\
         forallb (fun v => negb (malformed_record v)) pre = true /\
         malformed_record bad = true /\
         msg = ("Error formatting vector at index " ++ str_of_nat (List.length pre) ++ ": "
                ++ violation (List.length pre) bad)%string).
Proof.
  intros sdk h vectors [-> | Hbad].
  - exists "Vectors list cannot be empty". repeat split. now left.
  - destruct (first_malformed vectors Hbad) as (pre & bad & post & E & Hpre & Hb).
    eexists. split; [|split; [|right; exists pre, bad, post; repeat split; eauto]].
    + unfold PineconeIndex.upsert, bind, lift.
      destruct vectors as [|v vs]; [destruct pre; discriminate|].
      rewrite E, (pinecone_loop_stops pre bad post Hpre Hb 0). reflexivity.
    + unfold ChromaCollection.upsert, bind, lift.
      destruct vectors as [|v vs]; [destruct pre; discriminate|].
      rewrite E, (chroma_loop_stops pre bad post Hpre Hb 0). reflexivity.
Qed.

Lemma upsert_rejects_malformed_batch_witness :
  exists msg,
    PineconeIndex.upsert
      [PyDict [("id", PyStr "1"); ("values", PyList [PyFloat 0.1]); ("metadata", PyDict [])];
       PyDict [("id", PyStr "2"); ("metadata", PyDict [])]] sdk_fixture []
    = ([], Raise (mkExc ValidationError msg)) /\
    ChromaCollection.upsert
      [PyDict [("id", PyStr "1"); ("values", PyList [PyFloat 0.1]); ("metadata", PyDict [])];
       PyDict [("id", PyStr "2"); ("metadata", PyDict [])]] sdk_fixture []
    = ([], Raise (mkExc ValidationError msg)).
Proof.
  destruct (upsert_rejects_malformed_batch sdk_fixture []
              [PyDict [("id", PyStr "1"); ("values", PyList [PyFloat 0.1]); ("metadata", PyDict [])];
               PyDict [("id", PyStr "2"); ("metadata", PyDict [])]]
              (or_intror eq_refl)) as (msg & Hp & Hc & _).
  exists msg. split; assumption.
Defined.

(** ** Validation of queries *)

Lemma pinecone_query_valid sdk h vector top_k :
  valid_query vector top_k ->
  PineconeIndex.query vector top_k sdk h
  = try_except
      (results <- native (index_query vector top_k) ;;
       lift (PineconeIndex.get_matches results))
      (fun e => raise (mkExc VectorOperationError ("Failed to query vectors: " ++ py_str e)))
      sdk h.
Proof.
  intros (xs & -> & Hne & Hnum & Hk). unfold PineconeIndex.query.
  destruct xs as [|x xs]; [congruence|].
  rewrite Hnum. simpl negb. cbv iota.
  destruct (Z.ltb_spec top_k 1); [lia|]. reflexivity.
Qed.

Lemma forallb_existsb_negb {A : Type} (p : A -> bool) (xs : list A) :
  existsb (fun x => negb (p x)) xs = true -> forallb p xs = false.
Proof.
  induction xs as [|x xs IH]; simpl; [discriminate|].
  destruct (p x); simpl; auto.
Qed.

(** C5. On both adapters, [query] raises [ValidationError] and makes no
    native call when the vector is not a list, is the empty list, holds an
    element that is neither an [int] nor a [float], or when [top_k < 1]. *)
Theorem query_rejects_invalid_arguments :
  forall (sdk : Sdk) (h : list Call) (vector : PyVal) (top_k : Z),
    isinstance_list vector = false
    \/ vector = PyList []
    \/ (exists xs, vector = PyList xs /\
                   existsb (fun x => negb (isinstance_int_float x)) xs = true)
    \/ (top_k < 1)%Z ->
    exists msg,
      PineconeIndex.query vector top_k sdk h = (h, Raise (mkExc ValidationError msg)) /\
      ChromaCollection.query vector top_k sdk h = (h, Raise (mkExc ValidationError msg)).
Proof.
  intros sdk h vector top_k H.
  unfold PineconeIndex.query, ChromaCollection.query.
  destruct vector as [ | | | | |xs| ]; try (eexists; split; reflexivity).
  destruct xs as [|x xs]; [eexists; split; reflexivity|].
  destruct (forallb isinstance_int_float (x :: xs)) eqn:Hnum;
    [|eexists; split; reflexivity].
  destruct (Z.ltb_spec top_k 1) as [Hk|Hk]; [eexists; split; reflexivity|].
  exfalso. destruct H as [H | [H | [(ys & E & Hex) | H]]]; try discriminate; try lia.
  injection E as <-. apply forallb_existsb_negb in Hex. congruence.
Qed.

Lemma query_rejects_invalid_arguments_witness :
  exists msg,
    PineconeIndex.query (PyList [PyFloat 0.1; PyStr "x"]) 0 sdk_fixture []
    = ([], Raise (mkExc ValidationError msg)) /\
    ChromaCollection.query (PyList [PyFloat 0.1; PyStr "x"]) 0 sdk_fixture []
    = ([], Raise (mkExc ValidationError msg)).
Proof.
  apply (query_rejects_invalid_arguments sdk_fixture [] (PyList [PyFloat 0.1; PyStr "x"]) 0).
  right. right. right. lia.
Defined.

(** ** Reshaping of valid batches *)

(** C7. For a non-empty batch of well-formed records, the Pinecone
    adapter issues exactly one native call, [upsert] with the records'
    [(id, values, metadata)] tuples in batch order, and the Chroma adapter
    exactly one native call, [add] with the three columns of ids, values and
    metadatas, each as long as the batch and aligned with it.  The adapter
    returns if the native call returns and raises [VectorOperationError] if
    it raises. *)
Theorem upsert_issues_one_reshaped_call :
  forall (sdk : Sdk) (h : list Call) (vectors : list PyVal)
         (tuples : list (PyVal * PyVal * PyVal)),
    vectors <> [] ->
    Forall2 record_of vectors tuples ->
    let ids := map (fun t => fst (fst t)) tuples in
    let embeddings := map (fun t => snd (fst t)) tuples in
    let metadatas := map snd tuples in
    PineconeIndex.upsert vectors sdk h
    = (h ++ [index_upsert tuples],
       match sdk h (index_upsert tuples) with
       | Return _ => Return tt
       | Raise e => Raise (mkExc VectorOperationError ("Failed to upsert vectors: " ++ py_str e))
       end)
    /\ ChromaCollection.upsert vectors sdk h
       = (h ++ [collection_add ids embeddings metadatas],
          match sdk h (collection_add ids embeddings metadatas) with
          | Return _ => Return tt
          | Raise e => Raise (mkExc VectorOperationError ("Failed to upsert vectors: " ++ py_str e))
          end)
    /\ List.length tuples = List.length vectors
    /\ List.length ids = List.length vectors
    /\ List.length embeddings = List.length vectors
    /\ List.length metadatas = List.length vectors.
Proof.
  intros sdk h vectors tuples Hne Hrec ids embeddings metadatas.
  assert (Hlen : List.length tuples = List.length vectors)
    by (symmetry; eapply Forall2_length; eauto).
  split; [|split; [|subst ids embeddings metadatas; rewrite !length_map; auto]].
  - unfold PineconeIndex.upsert, bind, lift, try_except, native, raise.
    destruct vectors as [|v vs]; [congruence|].
    rewrite (pinecone_loop_formats _ _ Hrec 0 []). simpl app.
    destruct (sdk h (index_upsert tuples)) as [[]|e]; reflexivity.
  - unfold ChromaCollection.upsert, bind, lift, try_except, native, raise.
    destruct vectors as [|v vs]; [congruence|].
    rewrite (chroma_loop_formats _ _ Hrec 0 [] [] []). simpl app.
    fold ids embeddings metadatas.
    destruct (sdk h (collection_add ids embeddings metadatas)) as [[]|e]; reflexivity.
Qed.

Lemma upsert_issues_one_reshaped_call_witness :
  PineconeIndex.upsert
    [PyDict [("id", PyStr "1"); ("values", PyList [PyFloat 0.1; PyFloat 0.2; PyFloat 0.3]);
             ("metadata", PyDict [("text", PyStr "test1")])];
     PyDict [("id", PyStr "2"); ("values", PyList [PyFloat 0.4; PyFloat 0.5; PyFloat 0.6]);
             ("metadata", PyDict [("text", PyStr "test2")])]] sdk_fixture []
  = ([index_upsert
        [(PyStr "1", PyList [PyFloat 0.1; PyFloat 0.2; PyFloat 0.3], PyDict [("text", PyStr "test1")]);
         (PyStr "2", PyList [PyFloat 0.4; PyFloat 0.5; PyFloat 0.6], PyDict [("text", PyStr "test2")])]],
     Return tt).
Proof.
  refine (proj1 (upsert_issues_one_reshaped_call sdk_fixture [] _
            [(PyStr "1", PyList [PyFloat 0.1; PyFloat 0.2; PyFloat 0.3], PyDict [("text", PyStr "test1")]);
             (PyStr "2", PyList [PyFloat 0.4; PyFloat 0.5; PyFloat 0.6], PyDict [("text", PyStr "test2")])]
            _ _)).
  - discriminate.
  - repeat constructor; eexists; repeat split; reflexivity.
Defined.

(** ** Number of results of a query *)



(** ** Pinecone client: index creation *)

Lemma str_in_In (x : string) (xs : list string) :
  Pinecone.str_in x xs = true <-> In x xs.
Proof.
  unfold Pinecone.str_in. rewrite existsb_exists. split.
  - intros (y & Hy & E). apply String.eqb_eq in E. now subst.
  - intros H. exists x. split; [assumption | apply String.eqb_refl].
Qed.

Lemma nonempty_name (name : string) : name <> "" -> String.eqb name "" = false.
Proof. intros H. now apply String.eqb_neq. Qed.

(** C9. With a non-empty name and a dimension of at least 1,
    [create_index] raises [ValidationError] exactly when the metric is not
    one of cosine, euclidean, dotproduct, and then makes no native call;
    otherwise it issues the native create-index call with the given name,
    dimension and metric, and its outcome is that call's (a native failure
    becoming [ProviderError]). *)
Theorem create_index_metric_validation :
  forall (sdk : Sdk) (h : list Call) (name : string) (dimension : Z) (metric : string),
    name <> "" ->
    (1 <= dimension)%Z ->
    ((exists e, snd (Pinecone.create_index name dimension metric sdk h) = Raise e
                /\ exc_class e = ValidationError)
     <-> ~ In metric ["cosine"; "euclidean"; "dotproduct"])
    /\ (Pinecone.create_index name dimension metric sdk h
        = if Pinecone.str_in metric ["cosine"; "euclidean"; "dotproduct"]
          then (h ++ [client_create_index name dimension metric],
                match sdk h (client_create_index name dimension metric) with
                | Return _ => Return tt
                | Raise e => Raise (mkExc ProviderError ("Failed to create index: " ++ py_str e))
                end)
          else (h, Raise (mkExc ValidationError
                            "Metric must be one of: cosine, euclidean, dotproduct"))).
Proof.
  intros sdk h name dimension metric Hname Hdim.
  assert (E : Pinecone.create_index name dimension metric sdk h
        = if Pinecone.str_in metric ["cosine"; "euclidean"; "dotproduct"]
          then (h ++ [client_create_index name dimension metric],
                match sdk h (client_create_index name dimension metric) with
                | Return _ => Return tt
                | Raise e => Raise (mkExc ProviderError ("Failed to create index: " ++ py_str e))
                end)
          else (h, Raise (mkExc ValidationError
                            "Metric must be one of: cosine, euclidean, dotproduct"))).
  { unfold Pinecone.create_index. rewrite (nonempty_name _ Hname).
    destruct (Z.ltb_spec dimension 1); [lia|].
    fold Pinecone.valid_metrics.
    destruct (Pinecone.str_in metric Pinecone.valid_metrics); cbn [negb].
    - unfold try_except, native, raise.
      destruct (sdk h (client_create_index name dimension metric)) as [[]|e]; reflexivity.
    - reflexivity. }
  split; [|exact E].
  rewrite E, <- str_in_In.
  destruct (Pinecone.str_in metric ["cosine"; "euclidean"; "dotproduct"]); simpl.
  - split; [|congruence].
    intros (e & He & Hc).
    destruct (sdk h (client_create_index name dimension metric)) as [[]|e'];
      [discriminate|]. injection He as <-. discriminate.
  - split; [congruence|]. intros _. eexists. split; reflexivity.
Qed.

Lemma create_index_metric_validation_witness :
  Pinecone.create_index "new-index" 3 "cosine" sdk_fixture []
  = ([client_create_index "new-index" 3 "cosine"], Return tt)
  /\ Pinecone.create_index "new-index" 3 "manhattan" sdk_fixture []
     = ([], Raise (mkExc ValidationError "Metric must be one of: cosine, euclidean, dotproduct")).
Proof.
  split.
  - refine (proj2 (create_index_metric_validation sdk_fixture [] "new-index" 3 "cosine" _ _));
      [discriminate | lia].
  - refine (proj2 (create_index_metric_validation sdk_fixture [] "new-index" 3 "manhattan" _ _));
      [discriminate | lia].
Defined.

(** ** Deleting what does not exist *)




(** ** Chroma: the persist directory *)

(** [not x] for an [Optional[str]] *)
Lemma or_str_empty (x : option string) (y : string) :
  or_str x y = "" <-> (x = None \/ x = Some "") /\ y = "".
Proof.
  unfold or_str. destruct x as [s|].
  - destruct (String.eqb_spec s "") as [->|Hs].
    + split; [auto | tauto].
    + split; [congruence|]. intros [[H|H] _]; congruence.
  - split; [auto | tauto].
Qed.

Lemma history_grows (h : list Call) (c : Call) : h ++ [c] <> h.
Proof.
  intros E. apply (f_equal (@List.length Call)) in E.
  rewrite length_app in E. simpl in E. lia.
Qed.

(** C10, as stated, fails: with [CHROMA_PERSIST_DIRECTORY] set to the empty
    string, [get_persist_directory] returns the empty string, and [init] and
    [PersistentClient] called without a directory take the "Persist
    directory not found" branch. *)
Lemma persist_directory_branch_is_reachable :
  Chroma.get_persist_directory env_empty_dir = ""
  /\ Chroma.init env_empty_dir None sdk_fixture []
     = ([], Raise (mkExc ConfigurationError
                     "Failed to initialize Chroma client: Persist directory not found"))
  /\ Chroma.PersistentClient env_empty_dir None sdk_fixture []
     = ([], Raise (mkExc ConfigurationError
                     "Failed to initialize Chroma client: Persist directory not found")).
Proof. repeat split; reflexivity. Qed.

(** C10 (amended). [get_persist_directory] returns the value of
    [CHROMA_PERSIST_DIRECTORY] when it is set and "./chroma_db" when it is
    not, so it returns the empty string exactly when the variable is set to
    the empty string.  [init] and [PersistentClient] take the "Persist
    directory not found" branch (no native call, [ConfigurationError])
    exactly when the explicit argument is [None] or empty and the variable
    is set to the empty string. *)
Theorem persist_directory_branch :
  forall (env : Env) (arg : option string) (sdk : Sdk) (h : list Call),
    Chroma.get_persist_directory env
    = match env "CHROMA_PERSIST_DIRECTORY" with Some v => v | None => "./chroma_db" end
    /\ (Chroma.get_persist_directory env = "" <-> env "CHROMA_PERSIST_DIRECTORY" = Some "")
    /\ (Chroma.init env arg sdk h
        = (h, Raise (mkExc ConfigurationError
                       "Failed to initialize Chroma client: Persist directory not found"))
        <-> (arg = None \/ arg = Some "") /\ env "CHROMA_PERSIST_DIRECTORY" = Some "")
    /\ (Chroma.PersistentClient env arg sdk h
        = (h, Raise (mkExc ConfigurationError
                       "Failed to initialize Chroma client: Persist directory not found"))
        <-> (arg = None \/ arg = Some "") /\ env "CHROMA_PERSIST_DIRECTORY" = Some "").
Proof.
  intros env arg sdk h.
  assert (Hdir : Chroma.get_persist_directory env = ""
                 <-> env "CHROMA_PERSIST_DIRECTORY" = Some "").
  { unfold Chroma.get_persist_directory, getenv.
    destruct (env "CHROMA_PERSIST_DIRECTORY") as [v|].
    - split; congruence.
    - split; discriminate. }
  split; [reflexivity|]. split; [exact Hdir|].
  rewrite <- Hdir, <- or_str_empty.
  unfold Chroma.init, Chroma.PersistentClient, try_except, native, raise.
  destruct (String.eqb_spec (or_str arg (Chroma.get_persist_directory env)) "") as [E|E].
  - split; split; auto.
  - split; (split; [|tauto]); intros H; exfalso;
      destruct (sdk h (chromadb_PersistentClient _ false true)) as [[]|e];
      injection H as H _; exact (history_grows _ _ H).
Qed.

(** ** The provider registry *)

Section RegistryFacts.

Variable Cls : Type.
Implicit Types (d registry : ProviderRegistry.Providers Cls) (calls : list (string * Cls)).

Lemma dict_get_app {V : Type} (k : string) (a b : list (string * V)) :
  dict_get k (a ++ b) = match dict_get k a with Some v => Some v | None => dict_get k b end.
Proof.
  induction a as [|[k' v'] a IH]; simpl; [reflexivity|].
  destruct (String.eqb k k'); [reflexivity | exact IH].
Qed.

Lemma dict_get_set_same k v d :
  dict_get k (ProviderRegistry.dict_set k v d) = Some v.
Proof.
  induction d as [|[k' v'] d IH]; simpl.
  - now rewrite String.eqb_refl.
  - destruct (String.eqb k k') eqn:E; simpl; rewrite E; [reflexivity | exact IH].
Qed.

Lemma dict_get_set_other k k' v d :
  k <> k' -> dict_get k' (ProviderRegistry.dict_set k v d) = dict_get k' d.
Proof.
  intros Hne. induction d as [|[k0 v0] d IH]; simpl.
  - apply not_eq_sym, String.eqb_neq in Hne. now rewrite Hne.
  - destruct (String.eqb_spec k k0) as [->|Hk]; simpl.
    + apply not_eq_sym, String.eqb_neq in Hne. now rewrite Hne.
    + destruct (String.eqb k' k0); [reflexivity | exact IH].
Qed.

(** Where a registration puts the name among the keys. *)
Lemma keys_dict_set k v d :
  map fst (ProviderRegistry.dict_set k v d)
  = if existsb (String.eqb k) (map fst d) then map fst d else map fst d ++ [k].
Proof.
  induction d as [|[k' v'] d IH]; simpl; [reflexivity|].
  destruct (String.eqb k k'); simpl; [reflexivity|].
  rewrite IH. now destruct (existsb (String.eqb k) (map fst d)).
Qed.

Lemma register_all_cons registry k v calls :
  ProviderRegistry.register_all registry ((k, v) :: calls)
  = ProviderRegistry.register_all (ProviderRegistry.dict_set k v registry) calls.
Proof. reflexivity. Qed.

Lemma keys_register_all calls : forall registry,
  ProviderRegistry.list_providers (ProviderRegistry.register_all registry calls)
  = fold_left (fun seen n => if existsb (String.eqb n) seen then seen else seen ++ [n])
      (map fst calls) (ProviderRegistry.list_providers registry).
Proof.
  induction calls as [|[k v] calls IH]; intros registry; [reflexivity|].
  rewrite register_all_cons, IH. unfold ProviderRegistry.list_providers.
  now rewrite keys_dict_set.
Qed.

Lemma dict_get_register_all name calls : forall registry,
  dict_get name (ProviderRegistry.register_all registry calls)
  = match dict_get name (rev calls) with
    | Some cls => Some cls
    | None => dict_get name registry
    end.
Proof.
  induction calls as [|[k v] calls IH]; intros registry; [reflexivity|].
  rewrite register_all_cons, IH. simpl rev. rewrite dict_get_app.
  destruct (dict_get name (rev calls)); [reflexivity|]. simpl.
  destruct (String.eqb_spec name k) as [->|Hne].
  - apply dict_get_set_same.
  - apply dict_get_set_other. congruence.
Qed.

Lemma dict_get_In_keys name d :
  (exists cls, dict_get name d = Some cls) <-> In name (map fst d).
Proof.
  induction d as [|[k v] d IH]; simpl.
  - split; [intros [? ?]; discriminate | tauto].
  - destruct (String.eqb_spec name k) as [->|Hne].
    + split; eauto.
    + rewrite IH. split; [auto | intros [E|H]; [congruence | exact H]].
Qed.

Lemma existsb_eqb_In (n : string) (xs : list string) :
  existsb (String.eqb n) xs = true <-> In n xs.
Proof.
  rewrite existsb_exists. split.
  - intros (y & Hy & E). apply String.eqb_eq in E. now subst.
  - intros H. exists n. split; [assumption | apply String.eqb_refl].
Qed.

Lemma keys_NoDup_dict_set k v d :
  NoDup (map fst d) -> NoDup (map fst (ProviderRegistry.dict_set k v d)).
Proof.
  intros Hd. rewrite keys_dict_set.
  destruct (existsb (String.eqb k) (map fst d)) eqn:E; [assumption|].
  apply NoDup_app; [assumption | repeat constructor; simpl; tauto |].
  intros x Hx [<-|[]]. apply existsb_eqb_In in Hx. congruence.
Qed.

Lemma keys_NoDup_register_all calls : forall registry,
  NoDup (map fst registry) ->
  NoDup (map fst (ProviderRegistry.register_all registry calls)).
Proof.
  induction calls as [|[k v] calls IH]; intros registry Hd; [assumption|].
  rewrite register_all_cons. apply IH, keys_NoDup_dict_set, Hd.
Qed.

Lemma get_lookup registry name :
  ProviderRegistry.get registry name
  = match dict_get name registry with
    | Some cls => Return cls
    | None => Raise (mkExc KeyError ("Provider '" ++ name ++ "' not found"))
    end.
Proof.
  unfold ProviderRegistry.get, dict_contains.
  now destruct (dict_get name registry).
Qed.

Lemma get_provider_lookup registry name :
  ProviderRegistry.get_provider registry name
  = match dict_get (lower name) registry with
    | Some cls => Return cls
    | None => Raise (mkExc ValueError ("Unsupported provider: " ++ lower name))
    end.
Proof.
  unfold ProviderRegistry.get_provider, dict_contains.
  now destruct (dict_get (lower name) registry).
Qed.

End RegistryFacts.

Lemma lower_char_idempotent (c : ascii) : lower_char (lower_char c) = lower_char c.
Proof.
  destruct c as [[] [] [] [] [] [] [] []]; reflexivity.
Qed.

Lemma lower_idempotent (s : string) : lower (lower s) = lower s.
Proof.
  induction s as [|c s IH]; simpl; [reflexivity|].
  now rewrite lower_char_idempotent, IH.
Qed.



(** C8. After any sequence of [register] calls on a fresh registry,
    [get] of a name returns the type of the last call that registered it
    (and raises [KeyError] if no call did), every registered name has
    exactly one entry, and [list_providers] lists the names in the order in
    which each was first registered.  Registering a name again changes
    neither the number of entries nor their order. *)
Theorem register_overwrites_and_keeps_order :
  forall (Cls : Type) (calls : list (string * Cls)) (name : string) (cls1 cls2 : Cls),
    let registry := ProviderRegistry.register_all ProviderRegistry.init calls in
    let once := fst (ProviderRegistry.register registry name cls1) in
    let twice := fst (ProviderRegistry.register once name cls2) in
    ProviderRegistry.get registry name
    = match dict_get name (rev calls) with
      | Some cls => Return cls
      | None => Raise (mkExc KeyError ("Provider '" ++ name ++ "' not found"))
      end
    /\ count_occ string_dec (ProviderRegistry.list_providers registry) name
       = (if existsb (String.eqb name) (map fst calls) then 1 else 0)
    /\ ProviderRegistry.list_providers registry = registration_order (map fst calls)
    /\ ProviderRegistry.get once name = Return cls1
    /\ ProviderRegistry.get twice name = Return cls2
    /\ ProviderRegistry.list_providers twice = ProviderRegistry.list_providers once
    /\ count_occ string_dec (ProviderRegistry.list_providers twice) name = 1.
Proof.
  intros Cls calls name cls1 cls2 registry once twice.
  assert (Hnodup : NoDup (map fst registry))
    by (apply keys_NoDup_register_all; constructor).
  assert (Honce : NoDup (map fst once)) by (apply keys_NoDup_dict_set, Hnodup).
  assert (Hin : In name (map fst once)).
  { apply dict_get_In_keys. exists cls1. apply dict_get_set_same. }
  assert (Hkeys : ProviderRegistry.list_providers twice = ProviderRegistry.list_providers once).
  { unfold twice, ProviderRegistry.register, ProviderRegistry.list_providers. simpl fst.
    rewrite keys_dict_set.
    now rewrite (proj2 (existsb_eqb_In name (map fst once)) Hin). }
  repeat split.
  - rewrite get_lookup. unfold registry. rewrite dict_get_register_all.
    now destruct (dict_get name (rev calls)).
  - assert (Hreg : In name (map fst registry) <-> In name (map fst calls)).
    { rewrite <- dict_get_In_keys. unfold registry. rewrite dict_get_register_all.
      rewrite in_rev, <- map_rev, <- dict_get_In_keys.
      now destruct (dict_get name (rev calls)) as [c|]. }
    destruct (existsb (String.eqb name) (map fst calls)) eqn:E.
    + apply existsb_eqb_In, Hreg in E.
      now apply NoDup_count_occ'.
    + apply count_occ_not_In. rewrite Hreg, <- existsb_eqb_In. congruence.
  - apply keys_register_all.
  - rewrite get_lookup. unfold once, ProviderRegistry.register. simpl fst.
    now rewrite dict_get_set_same.
  - rewrite get_lookup. unfold twice, ProviderRegistry.register. simpl fst.
    now rewrite dict_get_set_same.
  - exact Hkeys.
  - rewrite Hkeys. now apply NoDup_count_occ'.
Qed.


(** * Further properties of the code *)

(** ** Registry: registration and lookup *)

Lemma dict_set_twice {Cls : Type} (k : string) (v1 v2 : Cls)
    (d : ProviderRegistry.Providers Cls) :
  ProviderRegistry.dict_set k v2 (ProviderRegistry.dict_set k v1 d)
  = ProviderRegistry.dict_set k v2 d.
Proof.
  induction d as [|[k' v'] d IH]; simpl.
  - now rewrite String.eqb_refl.
  - destruct (String.eqb k k') eqn:E; simpl; rewrite E; [reflexivity | now rewrite IH].
Qed.

(** X1. Looking a name up after a registration gives the newly registered
    type for the registered name and what the registry gave before for every
    other name; the decorator hands the type back unchanged. *)
Theorem get_after_register :
  forall (Cls : Type) (registry : ProviderRegistry.Providers Cls)
         (name : string) (cls : Cls) (query : string),
    ProviderRegistry.get (fst (ProviderRegistry.register registry name cls)) query
    = (if String.eqb query name then Return cls else ProviderRegistry.get registry query)
    /\ snd (ProviderRegistry.register registry name cls) = cls.
Proof.
  intros Cls registry name cls query. split; [|reflexivity].
  rewrite !get_lookup. unfold ProviderRegistry.register. simpl fst.
  destruct (String.eqb_spec query name) as [->|Hne].
  - now rewrite dict_get_set_same.
  - rewrite dict_get_set_other by congruence. reflexivity.
Qed.

(** X2. Registering a name twice leaves the registry exactly as the
    second registration alone would: the last write wins, and repeating a
    registration changes nothing. *)
Theorem register_last_write_wins :
  forall (Cls : Type) (registry : ProviderRegistry.Providers Cls)
         (name : string) (cls1 cls2 : Cls),
    fst (ProviderRegistry.register
           (fst (ProviderRegistry.register registry name cls1)) name cls2)
    = fst (ProviderRegistry.register registry name cls2)
    /\ fst (ProviderRegistry.register
              (fst (ProviderRegistry.register registry name cls1)) name cls1)
       = fst (ProviderRegistry.register registry name cls1).
Proof.
  intros Cls registry name cls1 cls2. unfold ProviderRegistry.register. simpl fst.
  split; apply dict_set_twice.
Qed.

(** X3. A registration never removes or moves a name: if the name is
    already listed the listing is unchanged, otherwise the name is appended
    at the end. *)
Theorem register_keeps_listing_order :
  forall (Cls : Type) (registry : ProviderRegistry.Providers Cls) (name : string) (cls : Cls),
    ProviderRegistry.list_providers (fst (ProviderRegistry.register_provider registry name cls))
    = if existsb (String.eqb name) (ProviderRegistry.list_providers registry)
      then ProviderRegistry.list_providers registry
      else ProviderRegistry.list_providers registry ++ [name].
Proof.
  intros Cls registry name cls.
  unfold ProviderRegistry.register_provider, ProviderRegistry.register,
    ProviderRegistry.list_providers.
  simpl fst. apply keys_dict_set.
Qed.

(** X4. [list_providers] and [get] agree: a name is listed exactly when
    [get] returns a type for it, and [get] raises [KeyError] ("Provider
    '<name>' not found") exactly for the names that are not listed. *)
Theorem listed_iff_get_returns :
  forall (Cls : Type) (registry : ProviderRegistry.Providers Cls) (name : string),
    (In name (ProviderRegistry.list_providers registry)
     <-> exists cls, ProviderRegistry.get registry name = Return cls)
    /\ (~ In name (ProviderRegistry.list_providers registry)
        <-> ProviderRegistry.get registry name
            = Raise (mkExc KeyError ("Provider '" ++ name ++ "' not found"))).
Proof.
  intros Cls registry name. unfold ProviderRegistry.list_providers.
  rewrite get_lookup, <- dict_get_In_keys.
  destruct (dict_get name registry) as [cls|].
  - split; split.
    + intros _. now exists cls.
    + intros _. now exists cls.
    + intros H. exfalso. apply H. now exists cls.
    + discriminate.
  - split; split.
    + intros [? ?]; discriminate.
    + intros [? ?]; discriminate.
    + reflexivity.
    + intros _ [? ?]. discriminate.
Qed.

(** X5. After [register_provider registry name cls], [get_provider] of a
    query returns [cls] when the lower-cased query equals [name], and
    otherwise what it returned before the registration. *)
Theorem get_provider_after_register :
  forall (Cls : Type) (registry : ProviderRegistry.Providers Cls)
         (name : string) (cls : Cls) (query : string),
    ProviderRegistry.get_provider
      (fst (ProviderRegistry.register_provider registry name cls)) query
    = if String.eqb (lower query) name then Return cls
      else ProviderRegistry.get_provider registry query.
Proof.
  intros Cls registry name cls query.
  rewrite !get_provider_lookup.
  unfold ProviderRegistry.register_provider, ProviderRegistry.register. simpl fst.
  destruct (String.eqb_spec (lower query) name) as [<-|Hne].
  - now rewrite dict_get_set_same.
  - rewrite dict_get_set_other by congruence. reflexivity.
Qed.

(** X6. A provider registered under a name that is not lower-case cannot
    be reached through [get_provider]: the registration changes the result
    of no [get_provider] call. *)
Theorem capitalised_registration_is_unreachable :
  forall (Cls : Type) (registry : ProviderRegistry.Providers Cls)
         (name : string) (cls : Cls) (query : string),
    lower name <> name ->
    ProviderRegistry.get_provider
      (fst (ProviderRegistry.register_provider registry name cls)) query
    = ProviderRegistry.get_provider registry query.
Proof.
  intros Cls registry name cls query Hname.
  rewrite !get_provider_lookup.
  unfold ProviderRegistry.register_provider, ProviderRegistry.register. simpl fst.
  rewrite dict_get_set_other; [reflexivity|].
  intros E. apply Hname. rewrite E. apply lower_idempotent.
Qed.

Lemma capitalised_registration_is_unreachable_witness :
  ProviderRegistry.get_provider
    (fst (ProviderRegistry.register_provider ProviderRegistry.init "Pinecone" 1)) "Pinecone"
  = ProviderRegistry.get_provider ProviderRegistry.init "Pinecone".
Proof.
  apply (capitalised_registration_is_unreachable nat ProviderRegistry.init "Pinecone" 1 "Pinecone").
  discriminate.
Defined.

(** ** Upsert: when the native call is made, and with what *)

Lemma well_formed_batch vectors :
  existsb malformed_record vectors = false ->
  exists tuples, Forall2 record_of vectors tuples.
Proof.
  induction vectors as [|v vectors IH]; simpl.
  - intros _. exists []. constructor.
  - intros H. apply orb_false_iff in H as [Hv Hrest].
    destruct (not_malformed_record v Hv) as [t Ht].
    destruct (IH Hrest) as [tuples Htuples].
    exists (t :: tuples). now constructor.
Qed.

Lemma pinecone_upsert_valid (sdk : Sdk) h vectors tuples :
  vectors <> [] ->
  Forall2 record_of vectors tuples ->
  PineconeIndex.upsert vectors sdk h
  = (h ++ [index_upsert tuples],
     match sdk h (index_upsert tuples) with
     | Return _ => Return tt
     | Raise e => Raise (mkExc VectorOperationError ("Failed to upsert vectors: " ++ py_str e))
     end).
Proof.
  intros Hne Hrec.
  unfold PineconeIndex.upsert, bind, lift, try_except, native, raise.
  destruct vectors as [|v vs]; [congruence|].
  rewrite (pinecone_loop_formats _ _ Hrec 0 []). simpl app.
  destruct (sdk h (index_upsert tuples)) as [[]|e]; reflexivity.
Qed.

Lemma chroma_upsert_valid (sdk : Sdk) h vectors tuples :
  vectors <> [] ->
  Forall2 record_of vectors tuples ->
  ChromaCollection.upsert vectors sdk h
  = (h ++ [collection_add (map (fun t => fst (fst t)) tuples)
                          (map (fun t => snd (fst t)) tuples) (map snd tuples)],
     match sdk h (collection_add (map (fun t => fst (fst t)) tuples)
                                 (map (fun t => snd (fst t)) tuples) (map snd tuples)) with
     | Return _ => Return tt
     | Raise e => Raise (mkExc VectorOperationError ("Failed to upsert vectors: " ++ py_str e))
     end).
Proof.
  intros Hne Hrec.
  unfold ChromaCollection.upsert, bind, lift, try_except, native, raise.
  destruct vectors as [|v vs]; [congruence|].
  rewrite (chroma_loop_formats _ _ Hrec 0 [] [] []). simpl app.
  destruct (sdk h (collection_add _ _ _)) as [[]|e]; reflexivity.
Qed.

Lemma pinecone_upsert_invalid (sdk : Sdk) h vectors :
  vectors = [] \/ existsb malformed_record vectors = true ->
  exists msg, PineconeIndex.upsert vectors sdk h = (h, Raise (mkExc ValidationError msg)).
Proof.
  intros [-> | Hbad]; [eexists; reflexivity|].
  destruct (first_malformed vectors Hbad) as (pre & bad & post & E & Hpre & Hb).
  unfold PineconeIndex.upsert, bind, lift.
  destruct vectors as [|v vs]; [destruct pre; discriminate|].
  rewrite E, (pinecone_loop_stops pre bad post Hpre Hb 0). eexists. reflexivity.
Qed.

Lemma chroma_upsert_invalid (sdk : Sdk) h vectors :
  vectors = [] \/ existsb malformed_record vectors = true ->
  exists msg, ChromaCollection.upsert vectors sdk h = (h, Raise (mkExc ValidationError msg)).
Proof.
  intros [-> | Hbad]; [eexists; reflexivity|].
  destruct (first_malformed vectors Hbad) as (pre & bad & post & E & Hpre & Hb).
  unfold ChromaCollection.upsert, bind, lift.
  destruct vectors as [|v vs]; [destruct pre; discriminate|].
  rewrite E, (chroma_loop_stops pre bad post Hpre Hb 0). eexists. reflexivity.
Qed.

(** Every batch is either rejected by validation or well-formed. *)
Lemma batch_cases vectors :
  (vectors = [] \/ existsb malformed_record vectors = true)
  \/ (vectors <> [] /\ exists tuples, Forall2 record_of vectors tuples).
Proof.
  destruct vectors as [|v vs]; [left; now left|].
  destruct (existsb malformed_record (v :: vs)) eqn:E; [left; now right|].
  right. split; [discriminate | now apply well_formed_batch].
Qed.

(** X7. On both adapters [upsert] leaves the history of native calls
    untouched exactly when the batch is empty or holds a malformed record;
    in every other case it has issued a native call. *)
Theorem upsert_calls_native_iff_batch_valid :
  forall (sdk : Sdk) (h : list Call) (vectors : list PyVal),
    (fst (PineconeIndex.upsert vectors sdk h) = h
     <-> vectors = [] \/ existsb malformed_record vectors = true)
    /\ (fst (ChromaCollection.upsert vectors sdk h) = h
        <-> vectors = [] \/ existsb malformed_record vectors = true).
Proof.
  intros sdk h vectors.
  destruct (batch_cases vectors) as [Hbad | [Hne [tuples Hrec]]].
  - destruct (pinecone_upsert_invalid sdk h vectors Hbad) as [m1 E1].
    destruct (chroma_upsert_invalid sdk h vectors Hbad) as [m2 E2].
    rewrite E1, E2. simpl. tauto.
  - rewrite (pinecone_upsert_valid sdk h vectors tuples Hne Hrec).
    rewrite (chroma_upsert_valid sdk h vectors tuples Hne Hrec). simpl.
    assert (Hok : ~ (vectors = [] \/ existsb malformed_record vectors = true)).
    { intros [E | E]; [congruence|].
      destruct (first_malformed vectors E) as (pre & bad & post & -> & _ & Hb).
      apply Forall2_app_inv_l in Hrec as (t1 & t2 & _ & Hrec & _).
      inversion Hrec as [|? t ? ? Hbad' ? ]; subst.
      apply record_not_malformed in Hbad'. congruence. }
    split; split; intros H; try tauto; exfalso; exact (history_grows _ _ H).
Qed.

Lemma combine_columns (tuples : list (PyVal * PyVal * PyVal)) :
  combine (combine (map (fun t => fst (fst t)) tuples) (map (fun t => snd (fst t)) tuples))
          (map snd tuples)
  = tuples.
Proof.
  induction tuples as [|[[a b] c] tuples IH]; simpl; [reflexivity | now rewrite IH].
Qed.

(** X8. For a non-empty batch without malformed record the two adapters
    send the same data: zipping the three columns of the Chroma [add] call
    gives back the tuple list of the Pinecone [upsert] call, one tuple per
    record of the batch. *)
Theorem chroma_columns_zip_to_pinecone_tuples :
  forall (sdk : Sdk) (h : list Call) (vectors : list PyVal),
    vectors <> [] ->
    existsb malformed_record vectors = false ->
    exists tuples ids embeddings metadatas,
      fst (PineconeIndex.upsert vectors sdk h) = h ++ [index_upsert tuples]
      /\ fst (ChromaCollection.upsert vectors sdk h)
         = h ++ [collection_add ids embeddings metadatas]
      /\ combine (combine ids embeddings) metadatas = tuples
      /\ List.length tuples = List.length vectors.
Proof.
  intros sdk h vectors Hne Hok.
  destruct (well_formed_batch vectors Hok) as [tuples Hrec].
  exists tuples, (map (fun t => fst (fst t)) tuples), (map (fun t => snd (fst t)) tuples),
    (map snd tuples).
  rewrite (pinecone_upsert_valid sdk h vectors tuples Hne Hrec).
  rewrite (chroma_upsert_valid sdk h vectors tuples Hne Hrec).
  repeat split.
  - apply combine_columns.
  - symmetry. eapply Forall2_length. eauto.
Qed.

Lemma chroma_columns_zip_to_pinecone_tuples_witness :
  exists tuples ids embeddings metadatas,
    fst (PineconeIndex.upsert
           [PyDict [("id", PyStr "1"); ("values", PyList [PyFloat 0.1]);
                    ("metadata", PyDict []); ("extra", PyNone)]] sdk_fixture [])
    = [] ++ [index_upsert tuples]
    /\ fst (ChromaCollection.upsert
              [PyDict [("id", PyStr "1"); ("values", PyList [PyFloat 0.1]);
                       ("metadata", PyDict []); ("extra", PyNone)]] sdk_fixture [])
       = [] ++ [collection_add ids embeddings metadatas]
    /\ combine (combine ids embeddings) metadatas = tuples
    /\ List.length tuples = 1.
Proof.
  apply (chroma_columns_zip_to_pinecone_tuples sdk_fixture []
           [PyDict [("id", PyStr "1"); ("values", PyList [PyFloat 0.1]);
                    ("metadata", PyDict []); ("extra", PyNone)]]).
  - discriminate.
  - reflexivity.
Defined.

(** ** Query: what becomes of the native response *)

(** X9. For a valid query the Pinecone adapter issues one native query
    and hands back whatever the response holds under ["matches"]; a response
    without that key, like a failure of the native call, becomes a
    [VectorOperationError] (for the missing key the message is "Failed to
    query vectors: 'matches'"). *)
Theorem pinecone_query_outcome :
  forall (sdk : Sdk) (h : list Call) (vector : PyVal) (top_k : Z),
    valid_query vector top_k ->
    PineconeIndex.query vector top_k sdk h
    = (h ++ [index_query vector top_k],
       match sdk h (index_query vector top_k) with
       | Raise e => Raise (mkExc VectorOperationError ("Failed to query vectors: " ++ py_str e))
       | Return results =>
           match dict_get "matches" results with
           | Some matches => Return matches
           | None => Raise (mkExc VectorOperationError "Failed to query vectors: 'matches'")
           end
       end).
Proof.
  intros sdk h vector top_k Hvalid.
  rewrite pinecone_query_valid by assumption.
  unfold try_except, bind, native, lift, raise, PineconeIndex.get_matches.
  destruct (sdk h (index_query vector top_k)) as [results|e]; [|reflexivity].
  now destruct (dict_get "matches" results).
Qed.

Lemma pinecone_query_outcome_witness :
  PineconeIndex.query (PyList [PyInt 1; PyFloat 0.5]) 3 sdk_no_matches_key []
  = ([index_query (PyList [PyInt 1; PyFloat 0.5]) 3],
     Raise (mkExc VectorOperationError "Failed to query vectors: 'matches'")).
Proof.
  refine (pinecone_query_outcome sdk_no_matches_key [] (PyList [PyInt 1; PyFloat 0.5]) 3 _).
  exists [PyInt 1; PyFloat 0.5]. repeat split; [discriminate | lia].
Defined.

Section ChromaColumns.

Variable results : QueryResult.
Variables (ids0 metadatas0 : list PyVal) (distances0 : list float).
Variables (ids' metadatas' : list (list PyVal)) (distances' : list (list float)).
Hypothesis Hids : ids results = ids0 :: ids'.
Hypothesis Hmetadatas : metadatas results = metadatas0 :: metadatas'.
Hypothesis Hdistances : distances results = distances0 :: distances'.

(** The loop reads only as many metadatas and distances as there are ids. *)
Lemma query_loop_surplus :
  forall (si sm : list PyVal) (sd : list float) (pi pm : list PyVal) (pd : list float) acc,
    ids0 = pi ++ si -> metadatas0 = pm ++ sm -> distances0 = pd ++ sd ->
    List.length pm = List.length pi -> List.length pd = List.length pi ->
    List.length si <= List.length sm -> List.length si <= List.length sd ->
    ChromaCollection.query_loop results (seq (List.length pi) (List.length si)) acc
    = Return (acc ++ map canonical_result (combine (combine si sm) sd)).
Proof.
  induction si as [|id si IH]; intros sm sd pi pm pd acc Ei Em Ed Lm Ld Lsm Lsd.
  - simpl. now rewrite app_nil_r.
  - destruct sm as [|m sm]; [simpl in Lsm; lia|]. destruct sd as [|d sd]; [simpl in Lsd; lia|].
    simpl in Lsm, Lsd.
    cbn [List.length seq ChromaCollection.query_loop].
    rewrite (format_result_at results ids0 metadatas0 distances0 ids' metadatas' distances'
               Hids Hmetadatas Hdistances (List.length pi) id m d).
    + replace (S (List.length pi)) with (List.length (pi ++ [id]))
        by (rewrite length_app; simpl; lia).
      rewrite (IH sm sd (pi ++ [id]) (pm ++ [m]) (pd ++ [d]));
        rewrite <- ?app_assoc, ?length_app; simpl; auto; lia.
    + rewrite Ei, nth_error_app2, Nat.sub_diag by lia. reflexivity.
    + rewrite Em, nth_error_app2 by lia. rewrite Lm, Nat.sub_diag. reflexivity.
    + rewrite Ed, nth_error_app2 by lia. rewrite Ld, Nat.sub_diag. reflexivity.
Qed.

End ChromaColumns.

Lemma format_results_surplus (results : QueryResult) :
  ids results <> [] ->
  List.length (column0 (ids results)) <= List.length (column0 (metadatas results)) ->
  List.length (column0 (ids results)) <= List.length (column0 (distances results)) ->
  ChromaCollection.format_results results
  = Return (map canonical_result
              (combine (combine (column0 (ids results)) (column0 (metadatas results)))
                       (column0 (distances results)))).
Proof.
  intros Hne Lm Ld. unfold ChromaCollection.format_results, list_item.
  destruct (ids results) as [|ids0 ids'] eqn:Hi; [congruence|]. simpl in *.
  destruct (metadatas results) as [|m0 m'] eqn:Hm.
  { simpl in Lm. destruct ids0; [reflexivity | simpl in Lm; lia]. }
  destruct (distances results) as [|d0 d'] eqn:Hd.
  { simpl in Ld. destruct ids0; [reflexivity | simpl in Ld; lia]. }
  simpl in *.
  exact (query_loop_surplus results ids0 m0 d0 ids' m' d' Hi Hm Hd
           ids0 m0 d0 [] [] [] [] eq_refl eq_refl eq_refl eq_refl eq_refl Lm Ld).
Qed.

(** X10. For a valid query whose native response has at least as many
    metadatas and distances as ids in its first column, the Chroma adapter
    returns one canonical result per id, in order; surplus metadatas and
    distances are ignored, and no ids gives the empty list. *)
Theorem chroma_query_ignores_surplus :
  forall (sdk : Sdk) (h : list Call) (vector : PyVal) (top_k : Z) (results : QueryResult),
    valid_query vector top_k ->
    sdk h (collection_query [vector] top_k ["metadatas"; "distances"]) = Return results ->
    ids results <> [] ->
    List.length (column0 (ids results)) <= List.length (column0 (metadatas results)) ->
    List.length (column0 (ids results)) <= List.length (column0 (distances results)) ->
    ChromaCollection.query vector top_k sdk h
    = (h ++ [collection_query [vector] top_k ["metadatas"; "distances"]],
       Return (map canonical_result
                 (combine (combine (column0 (ids results)) (column0 (metadatas results)))
                          (column0 (distances results)))))
    /\ List.length (map canonical_result
                      (combine (combine (column0 (ids results)) (column0 (metadatas results)))
                               (column0 (distances results))))
       = List.length (column0 (ids results)).
Proof.
  intros sdk h vector top_k results Hvalid Hsdk Hne Lm Ld. split.
  - rewrite chroma_query_valid by assumption.
    unfold try_except, bind, native, lift. rewrite Hsdk.
    now rewrite format_results_surplus.
  - rewrite length_map, !length_combine. lia.
Qed.

Lemma chroma_query_ignores_surplus_witness :
  ChromaCollection.query (PyList [PyFloat 0.1]) 1 sdk_surplus []
  = ([collection_query [PyList [PyFloat 0.1]] 1 ["metadatas"; "distances"]],
     Return [PyDict [("id", PyStr "1"); ("metadata", PyDict []); ("score", PyFloat 0.75)]]).
Proof.
  refine (proj1 (chroma_query_ignores_surplus sdk_surplus [] (PyList [PyFloat 0.1]) 1
            (mkQueryResult [[PyStr "1"]] [[PyDict []; PyDict []]]
                           [[0.25%float; 0.5%float; 0.75%float]])
            _ eq_refl _ _ _)).
  - exists [PyFloat 0.1]. repeat split; [discriminate | lia].
  - discriminate.
  - simpl. lia.
  - simpl. lia.
Defined.

Lemma format_result_only_index_error results i e :
  ChromaCollection.format_result results i = Raise e ->
  e = mkExc IndexError "list index out of range".
Proof.
  unfold ChromaCollection.format_result, list_item.
  repeat match goal with
         | |- context [match nth_error ?l ?n with _ => _ end] => destruct (nth_error l n)
         end; congruence.
Qed.

Lemma query_loop_raises results indices : forall acc,
  (exists i, In i indices /\ exists e, ChromaCollection.format_result results i = Raise e) ->
  ChromaCollection.query_loop results indices acc
  = Raise (mkExc IndexError "list index out of range").
Proof.
  induction indices as [|i0 indices IH]; intros acc (i & Hin & e & He); [destruct Hin|].
  simpl. destruct (ChromaCollection.format_result results i0) as [r|e0] eqn:E0.
  - apply IH. exists i. split; [|eauto].
    destruct Hin as [<-|Hin]; [congruence | exact Hin].
  - now rewrite (format_result_only_index_error _ _ _ E0).
Qed.

Lemma format_result_short_metadatas results i :
  List.length (column0 (metadatas results)) <= i ->
  exists e, ChromaCollection.format_result results i = Raise e.
Proof.
  intros H. unfold ChromaCollection.format_result, list_item.
  destruct (nth_error (ids results) 0) as [ids0|]; [|eauto].
  destruct (nth_error ids0 i); [|eauto].
  destruct (metadatas results) as [|m0 m']; simpl in *; [eauto|].
  apply nth_error_None in H. rewrite H. eauto.
Qed.

Lemma format_result_short_distances results i :
  List.length (column0 (distances results)) <= i ->
  exists e, ChromaCollection.format_result results i = Raise e.
Proof.
  intros H. unfold ChromaCollection.format_result, list_item.
  destruct (nth_error (ids results) 0) as [ids0|]; [|eauto].
  destruct (nth_error ids0 i); [|eauto].
  destruct (nth_error (metadatas results) 0) as [m0|]; [|eauto].
  destruct (nth_error m0 i); [|eauto].
  destruct (distances results) as [|d0 d']; simpl in *; [eauto|].
  apply nth_error_None in H. rewrite H. eauto.
Qed.

Lemma format_results_ragged (results : QueryResult) :
  ids results = []
  \/ List.length (column0 (metadatas results)) < List.length (column0 (ids results))
  \/ List.length (column0 (distances results)) < List.length (column0 (ids results)) ->
  ChromaCollection.format_results results
  = Raise (mkExc IndexError "list index out of range").
Proof.
  intros H. unfold ChromaCollection.format_results, list_item.
  destruct (ids results) as [|ids0 ids'] eqn:Hi; [reflexivity|]. simpl in *.
  apply query_loop_raises.
  destruct H as [H | [H | H]]; [discriminate | |].
  - exists (List.length (column0 (metadatas results))). split.
    + apply in_seq. lia.
    + now apply format_result_short_metadatas.
  - exists (List.length (column0 (distances results))). split.
    + apply in_seq. lia.
    + now apply format_result_short_distances.
Qed.

(** X11. For a valid query whose native response has no first column of
    ids, or fewer metadatas or fewer distances than ids in the first
    column, the Chroma adapter returns no partial result: it raises
    [VectorOperationError] with the message "Failed to query vectors: list
    index out of range". *)
Theorem chroma_query_rejects_ragged_response :
  forall (sdk : Sdk) (h : list Call) (vector : PyVal) (top_k : Z) (results : QueryResult),
    valid_query vector top_k ->
    sdk h (collection_query [vector] top_k ["metadatas"; "distances"]) = Return results ->
    ids results = []
    \/ List.length (column0 (metadatas results)) < List.length (column0 (ids results))
    \/ List.length (column0 (distances results)) < List.length (column0 (ids results)) ->
    ChromaCollection.query vector top_k sdk h
    = (h ++ [collection_query [vector] top_k ["metadatas"; "distances"]],
       Raise (mkExc VectorOperationError "Failed to query vectors: list index out of range")).
Proof.
  intros sdk h vector top_k results Hvalid Hsdk Hragged.
  rewrite chroma_query_valid by assumption.
  unfold try_except, bind, native, lift. rewrite Hsdk.
  now rewrite format_results_ragged.
Qed.

Lemma chroma_query_rejects_ragged_response_witness :
  ChromaCollection.query (PyList [PyFloat 0.1]) 2 sdk_ragged []
  = ([collection_query [PyList [PyFloat 0.1]] 2 ["metadatas"; "distances"]],
     Raise (mkExc VectorOperationError "Failed to query vectors: list index out of range")).
Proof.
  refine (chroma_query_rejects_ragged_response sdk_ragged [] (PyList [PyFloat 0.1]) 2
            (mkQueryResult [[PyStr "1"; PyStr "2"]] [[PyDict []]]
                           [[0.1%float; 0.5%float; 0.75%float]])
            _ eq_refl _).
  - exists [PyFloat 0.1]. repeat split; [discriminate | lia].
  - right. left. simpl. lia.
Defined.

(** ** What the data operations may raise, and how many native calls they make *)

(** The history [h'] extends [h] by at most [n] native calls. *)
Lemma extends_by_none {C : Type} (h : list C) (n : nat) :
  exists calls, h = h ++ calls /\ List.length calls <= n.
Proof. exists []. rewrite app_nil_r. split; [reflexivity | simpl; lia]. Qed.

Lemma extends_by_one {C : Type} (h : list C) (c : C) (n : nat) :
  1 <= n -> exists calls, h ++ [c] = h ++ calls /\ List.length calls <= n.
Proof. intros H. exists [c]. split; [reflexivity | simpl; lia]. Qed.

Lemma pinecone_upsert_domain_errors (sdk : Sdk) h vectors :
  raises_only [ValidationError; VectorOperationError] (snd (PineconeIndex.upsert vectors sdk h))
  /\ exists calls, fst (PineconeIndex.upsert vectors sdk h) = h ++ calls
                   /\ List.length calls <= 1.
Proof.
  destruct (batch_cases vectors) as [Hbad | [Hne [tuples Hrec]]].
  - destruct (pinecone_upsert_invalid sdk h vectors Hbad) as [m E]. rewrite E. simpl.
    split; [auto | apply extends_by_none].
  - rewrite (pinecone_upsert_valid sdk h vectors tuples Hne Hrec). simpl.
    split; [|now apply extends_by_one].
    destruct (sdk h (index_upsert tuples)); simpl; auto.
Qed.

Lemma chroma_upsert_domain_errors (sdk : Sdk) h vectors :
  raises_only [ValidationError; VectorOperationError] (snd (ChromaCollection.upsert vectors sdk h))
  /\ exists calls, fst (ChromaCollection.upsert vectors sdk h) = h ++ calls
                   /\ List.length calls <= 1.
Proof.
  destruct (batch_cases vectors) as [Hbad | [Hne [tuples Hrec]]].
  - destruct (chroma_upsert_invalid sdk h vectors Hbad) as [m E]. rewrite E. simpl.
    split; [auto | apply extends_by_none].
  - rewrite (chroma_upsert_valid sdk h vectors tuples Hne Hrec). simpl.
    split; [|now apply extends_by_one].
    destruct (sdk h (collection_add _ _ _)); simpl; auto.
Qed.

Lemma pinecone_query_domain_errors (sdk : Sdk) h vector top_k :
  raises_only [ValidationError; VectorOperationError] (snd (PineconeIndex.query vector top_k sdk h))
  /\ exists calls, fst (PineconeIndex.query vector top_k sdk h) = h ++ calls
                   /\ List.length calls <= 1.
Proof.
  unfold PineconeIndex.query.
  destruct vector as [ | | | | |xs| ]; try (simpl; split; [auto | apply extends_by_none]).
  destruct xs as [|x xs]; [simpl; split; [auto | apply extends_by_none]|].
  destruct (forallb isinstance_int_float (x :: xs));
    [|simpl; split; [auto | apply extends_by_none]].
  destruct (top_k <? 1)%Z; [simpl; split; [auto | apply extends_by_none]|].
  cbn [negb]. unfold try_except, bind, native, lift, raise.
  destruct (sdk h (index_query (PyList (x :: xs)) top_k)) as [results|e]; simpl.
  - destruct (PineconeIndex.get_matches results); simpl;
      (split; [auto | now apply extends_by_one]).
  - split; [auto | now apply extends_by_one].
Qed.

Lemma chroma_query_domain_errors (sdk : Sdk) h vector top_k :
  raises_only [ValidationError; VectorOperationError]
    (snd (ChromaCollection.query vector top_k sdk h))
  /\ exists calls, fst (ChromaCollection.query vector top_k sdk h) = h ++ calls
                   /\ List.length calls <= 1.
Proof.
  unfold ChromaCollection.query.
  destruct vector as [ | | | | |xs| ]; try (simpl; split; [auto | apply extends_by_none]).
  destruct xs as [|x xs]; [simpl; split; [auto | apply extends_by_none]|].
  destruct (forallb isinstance_int_float (x :: xs));
    [|simpl; split; [auto | apply extends_by_none]].
  destruct (top_k <? 1)%Z; [simpl; split; [auto | apply extends_by_none]|].
  cbn [negb]. unfold try_except, bind, native, lift, raise.
  destruct (sdk h (collection_query [PyList (x :: xs)] top_k ["metadatas"; "distances"]))
    as [results|e]; simpl.
  - destruct (ChromaCollection.format_results results); simpl;
      (split; [auto | now apply extends_by_one]).
  - split; [auto | now apply extends_by_one].
Qed.

(** X12. Called with arguments of the annotated kinds ([vectors] a
    list, of any values; [vector] any value; [top_k] an [int]), and whatever
    exception the SDK raises, [upsert] and [query] of both adapters raise
    nothing but [ValidationError] and [VectorOperationError] (no native
    exception escapes unwrapped), and each of them makes at most one native
    call.  (A [top_k] that cannot be compared with 1, or a [vectors] that
    cannot be enumerated, is outside this statement: those uses sit outside
    the [try] blocks.) *)
Theorem data_operations_raise_only_domain_errors :
  forall (sdk : Sdk) (h : list Call) (vectors : list PyVal) (vector : PyVal) (top_k : Z),
    (raises_only [ValidationError; VectorOperationError]
       (snd (PineconeIndex.upsert vectors sdk h))
     /\ exists calls, fst (PineconeIndex.upsert vectors sdk h) = h ++ calls
                      /\ List.length calls <= 1)
    /\ (raises_only [ValidationError; VectorOperationError]
          (snd (ChromaCollection.upsert vectors sdk h))
        /\ exists calls, fst (ChromaCollection.upsert vectors sdk h) = h ++ calls
                         /\ List.length calls <= 1)
    /\ (raises_only [ValidationError; VectorOperationError]
          (snd (PineconeIndex.query vector top_k sdk h))
        /\ exists calls, fst (PineconeIndex.query vector top_k sdk h) = h ++ calls
                         /\ List.length calls <= 1)
    /\ (raises_only [ValidationError; VectorOperationError]
          (snd (ChromaCollection.query vector top_k sdk h))
        /\ exists calls, fst (ChromaCollection.query vector top_k sdk h) = h ++ calls
                         /\ List.length calls <= 1).
Proof.
  intros sdk h vectors vector top_k.
  split; [apply pinecone_upsert_domain_errors|].
  split; [apply chroma_upsert_domain_errors|].
  split; [apply pinecone_query_domain_errors | apply chroma_query_domain_errors].
Qed.

(** ** Client operations on named indexes and collections *)

(** X13. [create_index] rejects its arguments, with [ValidationError] and
    without a native call, exactly when the name is empty, the dimension is
    below 1 or the metric is not one of cosine, euclidean, dotproduct. *)
Theorem create_index_rejects_iff_invalid :
  forall (sdk : Sdk) (h : list Call) (name : string) (dimension : Z) (metric : string),
    (name = "" \/ (dimension < 1)%Z \/ ~ In metric ["cosine"; "euclidean"; "dotproduct"])
    <-> exists msg,
          Pinecone.create_index name dimension metric sdk h
          = (h, Raise (mkExc ValidationError msg)).
Proof.
  intros sdk h name dimension metric. rewrite <- str_in_In.
  unfold Pinecone.create_index. fold Pinecone.valid_metrics.
  destruct (String.eqb_spec name "") as [->|Hname].
  { split; [intros _; eexists; reflexivity | auto]. }
  destruct (Z.ltb_spec dimension 1) as [Hd|Hd].
  { split; [intros _; eexists; reflexivity | auto]. }
  destruct (Pinecone.str_in metric Pinecone.valid_metrics) eqn:Hm; cbn [negb].
  - split.
    + intros [H | [H | H]]; [congruence | lia | congruence].
    + intros [msg E]. exfalso. unfold try_except, native, raise in E.
      destruct (sdk h (client_create_index name dimension metric)) as [[]|e];
        injection E as E _; exact (history_grows _ _ E).
  - split; [intros _; eexists; reflexivity|]. intros _. right. right. congruence.
Qed.

(** X14. [Pinecone.delete_index] returns normally exactly when the name
    is non-empty and the native delete returned; [ChromaClient.
    delete_collection] returns normally exactly when the name is non-empty
    and the native delete returned or raised a [ValueError].  With an empty
    name neither makes a native call. *)
Theorem delete_returns_iff :
  forall (sdk : Sdk) (h : list Call) (name : string),
    (snd (Pinecone.delete_index name sdk h) = Return tt
     <-> name <> "" /\ sdk h (client_delete_index name) = Return tt)
    /\ (snd (ChromaClient.delete_collection name sdk h) = Return tt
        <-> name <> ""
            /\ (sdk h (client_delete_collection name) = Return tt
                \/ exists e, sdk h (client_delete_collection name) = Raise e
                             /\ exc_class e = ValueError))
    /\ (name = "" <-> fst (Pinecone.delete_index name sdk h) = h)
    /\ (name = "" <-> fst (ChromaClient.delete_collection name sdk h) = h).
Proof.
  intros sdk h name.
  unfold Pinecone.delete_index, ChromaClient.delete_collection.
  destruct (String.eqb_spec name "") as [->|Hname].
  { simpl. repeat split; try discriminate; try tauto; intros [H _]; congruence. }
  unfold try_except, native, raise, ret, is_ValueError.
  split; [|split; [|split]].
  - destruct (sdk h (client_delete_index name)) as [[]|e]; simpl.
    + tauto.
    + split; [discriminate | intros [_ H]; discriminate].
  - destruct (sdk h (client_delete_collection name)) as [[]|e]; simpl.
    + split; [intros _; split; auto | reflexivity].
    + destruct (exc_class e) eqn:Hc; simpl;
        try (split; [discriminate | intros [_ [H | (e' & H & H')]];
                                    [discriminate | injection H as <-; congruence]]).
      split; [intros _; split; [assumption | right; eauto] | reflexivity].
  - split; [congruence|]. intros H. exfalso.
    destruct (sdk h (client_delete_index name)) as [[]|e]; exact (history_grows _ _ H).
  - split; [congruence|]. intros H. exfalso.
    destruct (sdk h (client_delete_collection name)) as [[]|e]; simpl in H;
      [exact (history_grows _ _ H)|].
    destruct (exc_class e); exact (history_grows _ _ H).
Qed.

(** X15. An explicit non-empty directory is the path [Chroma.init] opens,
    whatever the environment holds; an explicit empty string is treated like
    no argument; without a usable argument the path is the value of
    [CHROMA_PERSIST_DIRECTORY], or "./chroma_db" when the variable is unset.
    The native client is always opened with telemetry off and reset
    allowed, and [PersistentClient] behaves as [init] does. *)
Theorem chroma_init_directory_resolution :
  forall (env env' : Env) (arg : option string) (path : string) (sdk : Sdk) (h : list Call),
    path <> "" ->
    Chroma.init env (Some path) sdk h
    = (h ++ [chromadb_PersistentClient path false true],
       match sdk h (chromadb_PersistentClient path false true) with
       | Return _ => Return tt
       | Raise e =>
           Raise (mkExc ConfigurationError ("Failed to initialize Chroma client: " ++ py_str e))
       end)
    /\ Chroma.init env' (Some path) sdk h = Chroma.init env (Some path) sdk h
    /\ Chroma.init env (Some "") sdk h = Chroma.init env None sdk h
    /\ fst (Chroma.init env None sdk h)
       = match env "CHROMA_PERSIST_DIRECTORY" with
         | Some "" => h
         | Some dir => h ++ [chromadb_PersistentClient dir false true]
         | None => h ++ [chromadb_PersistentClient "./chroma_db" false true]
         end
    /\ Chroma.PersistentClient env arg sdk h = Chroma.init env arg sdk h.
Proof.
  intros env env' arg path sdk h Hpath.
  assert (E : forall env0, Chroma.init env0 (Some path) sdk h
    = (h ++ [chromadb_PersistentClient path false true],
       match sdk h (chromadb_PersistentClient path false true) with
       | Return _ => Return tt
       | Raise e =>
           Raise (mkExc ConfigurationError ("Failed to initialize Chroma client: " ++ py_str e))
       end)).
  { intros env0. unfold Chroma.init, or_str. rewrite (nonempty_name _ Hpath).
    cbv iota. rewrite (nonempty_name _ Hpath).
    unfold try_except, native, raise.
    destruct (sdk h (chromadb_PersistentClient path false true)) as [[]|e]; reflexivity. }
  split; [apply E|]. split; [now rewrite !E|]. split; [reflexivity|]. split; [|reflexivity].
  unfold Chroma.init, or_str, Chroma.get_persist_directory, getenv.
  destruct (env "CHROMA_PERSIST_DIRECTORY") as [dir|].
  - destruct (String.eqb_spec dir "") as [->|Hdir]; [reflexivity|].
    unfold try_except, native, raise.
    destruct dir as [|c dir]; [congruence|].
    destruct (sdk h (chromadb_PersistentClient (String c dir) false true)) as [[]|e];
      reflexivity.
  - simpl. unfold try_except, native, raise.
    destruct (sdk h (chromadb_PersistentClient "./chroma_db" false true)) as [[]|e];
      reflexivity.
Qed.

Lemma chroma_init_directory_resolution_witness :
  Chroma.init env_empty_dir (Some "./data") sdk_fixture []
  = ([chromadb_PersistentClient "./data" false true], Return tt).
Proof.
  refine (proj1 (chroma_init_directory_resolution env_empty_dir env_unset None "./data"
                   sdk_fixture [] _)).
  discriminate.
Defined.

Lemma create_index_domain_errors (sdk : Sdk) h name dimension metric :
  raises_only [ValidationError; ProviderError]
    (snd (Pinecone.create_index name dimension metric sdk h))
  /\ exists calls, fst (Pinecone.create_index name dimension metric sdk h) = h ++ calls
                   /\ List.length calls <= 1.
Proof.
  unfold Pinecone.create_index.
  destruct (String.eqb name ""); [simpl; split; [auto | apply extends_by_none]|].
  destruct (dimension <? 1)%Z; [simpl; split; [auto | apply extends_by_none]|].
  destruct (Pinecone.str_in metric Pinecone.valid_metrics); cbn [negb];
    [|simpl; split; [auto | apply extends_by_none]].
  unfold try_except, native, raise.
  destruct (sdk h (client_create_index name dimension metric)); simpl;
    (split; [auto | now apply extends_by_one]).
Qed.

Lemma delete_index_domain_errors (sdk : Sdk) h name :
  raises_only [ValidationError; ProviderError] (snd (Pinecone.delete_index name sdk h))
  /\ exists calls, fst (Pinecone.delete_index name sdk h) = h ++ calls
                   /\ List.length calls <= 1.
Proof.
  unfold Pinecone.delete_index.
  destruct (String.eqb name ""); [simpl; split; [auto | apply extends_by_none]|].
  unfold try_except, native, raise.
  destruct (sdk h (client_delete_index name)); simpl;
    (split; [auto | now apply extends_by_one]).
Qed.

Lemma delete_collection_domain_errors (sdk : Sdk) h name :
  raises_only [ValidationError; ProviderError] (snd (ChromaClient.delete_collection name sdk h))
  /\ exists calls, fst (ChromaClient.delete_collection name sdk h) = h ++ calls
                   /\ List.length calls <= 1.
Proof.
  unfold ChromaClient.delete_collection.
  destruct (String.eqb name ""); [simpl; split; [auto | apply extends_by_none]|].
  unfold try_except, native, raise, ret.
  destruct (sdk h (client_delete_collection name)) as [[]|e]; simpl;
    [split; [auto | now apply extends_by_one]|].
  destruct (is_ValueError e); simpl; (split; [auto | now apply extends_by_one]).
Qed.

Lemma chroma_init_domain_errors (sdk : Sdk) h env arg :
  raises_only [ConfigurationError] (snd (Chroma.init env arg sdk h))
  /\ exists calls, fst (Chroma.init env arg sdk h) = h ++ calls /\ List.length calls <= 1.
Proof.
  unfold Chroma.init, try_except, native, raise.
  destruct (String.eqb (or_str arg (Chroma.get_persist_directory env)) "");
    [simpl; split; [auto | apply extends_by_none]|].
  destruct (sdk h (chromadb_PersistentClient _ false true)); simpl;
    (split; [auto | now apply extends_by_one]).
Qed.

(** X16. Called with arguments of the annotated types ([name] and
    [metric] a [str], [dimension] an [int], the directory a [str] or
    [None]), and whatever exception the SDK raises, [create_index],
    [delete_index] and [delete_collection] raise nothing but
    [ValidationError] and [ProviderError], [Chroma.init] and
    [Chroma.PersistentClient] nothing but [ConfigurationError], and each
    makes at most one native call.  (A [dimension] that cannot be compared
    with 1 is outside this statement: the comparison sits outside the [try]
    block.) *)
Theorem client_operations_raise_only_domain_errors :
  forall (sdk : Sdk) (h : list Call) (env : Env) (arg : option string)
         (name : string) (dimension : Z) (metric : string),
    (raises_only [ValidationError; ProviderError]
       (snd (Pinecone.create_index name dimension metric sdk h))
     /\ exists calls, fst (Pinecone.create_index name dimension metric sdk h) = h ++ calls
                      /\ List.length calls <= 1)
    /\ (raises_only [ValidationError; ProviderError] (snd (Pinecone.delete_index name sdk h))
        /\ exists calls, fst (Pinecone.delete_index name sdk h) = h ++ calls
                         /\ List.length calls <= 1)
    /\ (raises_only [ValidationError; ProviderError]
          (snd (ChromaClient.delete_collection name sdk h))
        /\ exists calls, fst (ChromaClient.delete_collection name sdk h) = h ++ calls
                         /\ List.length calls <= 1)
    /\ (raises_only [ConfigurationError] (snd (Chroma.init env arg sdk h))
        /\ exists calls, fst (Chroma.init env arg sdk h) = h ++ calls
                         /\ List.length calls <= 1)
    /\ (raises_only [ConfigurationError] (snd (Chroma.PersistentClient env arg sdk h))
        /\ exists calls, fst (Chroma.PersistentClient env arg sdk h) = h ++ calls
                         /\ List.length calls <= 1).
Proof.
  intros sdk h env arg name dimension metric.
  split; [apply create_index_domain_errors|].
  split; [apply delete_index_domain_errors|].
  split; [apply delete_collection_domain_errors|].
  split; apply chroma_init_domain_errors.
Qed.

(** ** Chroma: getting or creating a collection *)

Lemma client_history_grows (h : list ClientCall) (calls : list ClientCall) :
  calls <> [] -> h ++ calls <> h.
Proof.
  intros Hne E. apply (f_equal (@List.length ClientCall)) in E.
  rewrite length_app in E. destruct calls; [congruence | simpl in E; lia].
Qed.

(** X17. [get_or_create_collection] with an empty name raises
    [ValidationError] without a native call.  Otherwise it asks for the
    collection: if that returns, the collection found is handed back; if it
    raises anything but [ValueError], the failure becomes [ProviderError]
    and nothing is created; if it raises [ValueError], the collection is
    created with metadata "hnsw:space" = "cosine" and handed back, a failure
    of the creation becoming [ProviderError]. *)
Theorem get_or_create_collection_cases :
  forall (sdk : ClientSdk) (h : list ClientCall) (name : string),
    let result := ChromaCollections.get_or_create_collection name sdk h in
    let get := client_get_collection name in
    let create := client_create_collection name [("hnsw:space", "cosine")] in
    (name = ""
     /\ result = (h, Raise (mkExc ValidationError "Collection name cannot be empty")))
    \/ (name <> ""
        /\ exists collection,
             sdk h get = Return collection /\ result = (h ++ [get], Return collection))
    \/ (name <> ""
        /\ exists e,
             sdk h get = Raise e /\ exc_class e <> ValueError
             /\ result
                = (h ++ [get],
                   Raise (mkExc ProviderError
                            ("Failed to get or create collection: " ++ py_str e))))
    \/ (name <> ""
        /\ exists e,
             sdk h get = Raise e /\ exc_class e = ValueError
             /\ result
                = (h ++ [get; create],
                   match sdk (h ++ [get]) create with
                   | Return collection => Return collection
                   | Raise e' =>
                       Raise (mkExc ProviderError
                                ("Failed to get or create collection: " ++ py_str e'))
                   end)).
Proof.
  intros sdk h name result get create. subst result.
  unfold ChromaCollections.get_or_create_collection.
  destruct (String.eqb_spec name "") as [->|Hname]; [left; auto|].
  right. unfold ClientM.try_except, ClientM.native, ClientM.raise. fold get create.
  destruct (sdk h get) as [collection|e] eqn:Eget.
  - left. split; [assumption|]. now exists collection.
  - right. unfold is_ValueError.
    destruct (exc_class e) eqn:Hc;
      try (left; split; [assumption|]; exists e; repeat split; congruence).
    right. split; [assumption|]. exists e. split; [reflexivity|]. split; [assumption|].
    rewrite <- app_assoc. simpl.
    now destruct (sdk (h ++ [get]) create).
Qed.

(** ** Pinecone: constructing the client *)

Lemma or_opt_cases (x y : option string) :
  ((x = None \/ x = Some "") /\ or_opt x y = y)
  \/ (exists key, x = Some key /\ key <> "" /\ or_opt x y = Some key).
Proof.
  unfold or_opt. destruct x as [s|]; [|left; auto].
  destruct (String.eqb_spec s "") as [->|Hs]; [left; auto|].
  right. exists s. auto.
Qed.

Lemma pinecone_init_with_key (sdk : ClientSdk) h env api_key key :
  or_opt api_key (PineconeClient.get_api_key env) = Some key ->
  key <> "" ->
  PineconeClient.init env api_key sdk h
  = (h ++ [new_Pinecone key],
     match sdk h (new_Pinecone key) with
     | Return client => Return client
     | Raise e =>
         Raise (mkExc ConfigurationError
                  ("Failed to initialize Pinecone client: Failed to create Pinecone client: "
                   ++ py_str e))
     end).
Proof.
  intros Hkey Hne. unfold PineconeClient.init. rewrite Hkey, (nonempty_name _ Hne).
  unfold PineconeClient.__init__, ClientM.try_except, ClientM.native, ClientM.raise.
  destruct (sdk h (new_Pinecone key)); reflexivity.
Qed.

(** X18. [Pinecone.init] fails with "Pinecone API key not found", without
    constructing a native client, exactly when the explicit key is [None]
    or empty and [PINECONE_API_KEY] is unset or empty. *)
Theorem pinecone_init_key_not_found_iff :
  forall (env : Env) (api_key : option string) (sdk : ClientSdk) (h : list ClientCall),
    PineconeClient.init env api_key sdk h
    = (h, Raise (mkExc ConfigurationError
                   "Failed to initialize Pinecone client: Pinecone API key not found"))
    <-> (api_key = None \/ api_key = Some "")
        /\ (env "PINECONE_API_KEY" = None \/ env "PINECONE_API_KEY" = Some "").
Proof.
  intros env api_key sdk h.
  change (env "PINECONE_API_KEY") with (PineconeClient.get_api_key env).
  assert (Hreached : forall key,
            or_opt api_key (PineconeClient.get_api_key env) = Some key -> key <> "" ->
            PineconeClient.init env api_key sdk h
            <> (h, Raise (mkExc ConfigurationError
                            "Failed to initialize Pinecone client: Pinecone API key not found"))).
  { intros key Hk Hne E. rewrite (pinecone_init_with_key sdk h env api_key key Hk Hne) in E.
    injection E as E _. apply (client_history_grows h [new_Pinecone key]); [discriminate|].
    exact E. }
  destruct (or_opt_cases api_key (PineconeClient.get_api_key env))
    as [[Hx Hor] | (key & Hx & Hne & Hor)].
  - destruct (PineconeClient.get_api_key env) as [v|] eqn:Henv.
    + destruct (String.eqb_spec v "") as [->|Hv].
      * split; [auto|]. intros _. unfold PineconeClient.init.
        replace (or_opt api_key (PineconeClient.get_api_key env)) with (Some "")
          by congruence.
        reflexivity.
      * split.
        -- intros E. exfalso. apply (Hreached v); [congruence | assumption | exact E].
        -- intros [_ [H | H]]; congruence.
    + split; [auto|]. intros _. unfold PineconeClient.init.
      replace (or_opt api_key (PineconeClient.get_api_key env)) with (@None string)
        by congruence.
      reflexivity.
  - split.
    + intros E. exfalso. exact (Hreached key Hor Hne E).
    + intros [[H | H] _]; congruence.
Qed.

(** X19. When a key is found (the explicit key if it is non-empty,
    otherwise a non-empty [PINECONE_API_KEY]), [Pinecone.init] constructs
    the native client with exactly that key; an explicit key takes
    precedence over the environment.  A failure of the native constructor
    is wrapped twice: "Failed to initialize Pinecone client: Failed to
    create Pinecone client: <original message>". *)
Theorem pinecone_init_uses_resolved_key :
  forall (env : Env) (api_key : option string) (key : string)
         (sdk : ClientSdk) (h : list ClientCall),
    key <> "" ->
    api_key = Some key
    \/ ((api_key = None \/ api_key = Some "") /\ env "PINECONE_API_KEY" = Some key) ->
    PineconeClient.init env api_key sdk h
    = (h ++ [new_Pinecone key],
       match sdk h (new_Pinecone key) with
       | Return client => Return client
       | Raise e =>
           Raise (mkExc ConfigurationError
                    ("Failed to initialize Pinecone client: Failed to create Pinecone client: "
                     ++ py_str e))
       end).
Proof.
  intros env api_key key sdk h Hne Hsrc.
  apply pinecone_init_with_key; [|assumption].
  destruct Hsrc as [-> | [[-> | ->] Henv]].
  - unfold or_opt. now rewrite (nonempty_name _ Hne).
  - exact Henv.
  - exact Henv.
Qed.

Lemma pinecone_init_uses_resolved_key_witness :
  PineconeClient.init env_api_key (Some "explicit-key")
    (client_sdk_raising (mkExc (OtherException "PineconeConfigurationError") "bad key")) []
  = ([new_Pinecone "explicit-key"],
     Raise (mkExc ConfigurationError
              "Failed to initialize Pinecone client: Failed to create Pinecone client: bad key"))
  /\ PineconeClient.init env_api_key (Some "") client_sdk_fixture []
     = ([new_Pinecone "test-api-key"], Return 0).
Proof.
  split.
  - refine (pinecone_init_uses_resolved_key env_api_key (Some "explicit-key") "explicit-key"
              (client_sdk_raising (mkExc (OtherException "PineconeConfigurationError") "bad key"))
              [] _ (or_introl eq_refl)).
    discriminate.
  - refine (pinecone_init_uses_resolved_key env_api_key (Some "") "test-api-key"
              client_sdk_fixture [] _ (or_intror (conj (or_intror eq_refl) eq_refl))).
    discriminate.
Defined.

(** ** What the remaining client operations may raise *)


(** ** Registry: the two lookups on lower-case names *)

(** X21. For a name that is already lower-case, [get_provider] and
    [registry.get] succeed together and return the same type; when the name
    is absent the former raises [ValueError], the latter [KeyError]. *)
Theorem lookups_agree_on_lower_case_names :
  forall (Cls : Type) (registry : ProviderRegistry.Providers Cls) (name : string),
    lower name = name ->
    (forall cls, ProviderRegistry.get_provider registry name = Return cls
                 <-> ProviderRegistry.get registry name = Return cls)
    /\ (ProviderRegistry.get_provider registry name
          = Raise (mkExc ValueError ("Unsupported provider: " ++ name))
        <-> ProviderRegistry.get registry name
            = Raise (mkExc KeyError ("Provider '" ++ name ++ "' not found"))).
Proof.
  intros Cls registry name Hlower.
  rewrite get_provider_lookup, get_lookup, Hlower.
  destruct (dict_get name registry) as [c|].
  - split; [intros cls; tauto|]. split; discriminate.
  - split; [intros cls; split; discriminate|]. tauto.
Qed.

Lemma lookups_agree_on_lower_case_names_witness :
  ProviderRegistry.get_provider
    (fst (ProviderRegistry.register_provider ProviderRegistry.init "chroma" 2)) "chroma"
  = Return 2
  <-> ProviderRegistry.get
        (fst (ProviderRegistry.register_provider ProviderRegistry.init "chroma" 2)) "chroma"
      = Return 2.
Proof.
  exact (proj1 (lookups_agree_on_lower_case_names nat
                  (fst (ProviderRegistry.register_provider ProviderRegistry.init "chroma" 2))
                  "chroma" eq_refl) 2).
Defined.
